(** * paanj-cloud/client-go: the WebSocket client and its event dispatch

    A shallow embedding of [ClientWebSocketClient] (package [client]) and of
    the properties its specification states about it.

    The repository carries the WebSocket client twice.  The two copies agree
    on every method except [listen]:
    - [src/websocket_client.go] dispatches every decoded frame to the
      handlers registered under the frame's [type] (module [Flat] below);
    - the second copy (the Go file that follows the README) classifies the
      frame first: chat messages are aliased and dispatched under
      ["message.create"], ["subscribed"] is logged, ["pong"] is dropped
      (module [Router] below).

    Everything outside the package is taken as the environment:
    [encoding/json] is modelled at the level of parsed documents, the
    gorilla dialer and connection by the answers they give, goroutines by
    the list of calls that a [go] statement starts. *)

From stdpp Require Import gmap strings list fin_maps.
From Stdlib Require Import ZArith Ascii String.

#[local] Set Warnings "-register-all".
#[local] Open Scope string_scope.

(** ** JSON documents and the Go values they decode to *)

(** A document as it is on the wire: the members of an object keep their
    order and their duplicates.  A number is its literal; [JHuge] is a
    literal too large for a [float64] (such as [1e999]), which is valid JSON
    and which [Unmarshal] refuses to store in an [interface{}]. *)
Inductive json :=
| JNull
| JBool (b : bool)
| JNum (lit : string)
| JHuge (lit : string)
| JStr (s : string)
| JArr (items : list json)
| JObj (members : list (string * json)).

(** An [interface{}].  What [json.Unmarshal] stores in one: [nil], [bool],
    [float64] (kept as the literal it was read from, the client never
    computes with it), [string], [[]interface{}], [map[string]interface{}];
    and, for what callers of [Send] and [Emit] may pass, a value of any other
    Go type, told apart by a name. *)
Inductive any :=
| ANil
| ABool (b : bool)
| AFloat (lit : string)
| AStr (s : string)
| ASlice (items : list any)
| AMap (m : gmap string any)
| AOther (name : string).

(** Decoding into an [interface{}]; in a map a later duplicate of a key
    replaces the earlier one.  [None] is an [UnmarshalTypeError]: whoever
    calls [Unmarshal] gets a non-nil error. *)
Fixpoint decode (j : json) : option any :=
  match j with
  | JNull => Some ANil
  | JBool b => Some (ABool b)
  | JNum x => Some (AFloat x)
  | JHuge _ => None
  | JStr s => Some (AStr s)
  | JArr l =>
      ASlice <$>
        (fix items (l : list json) : option (list any) :=
           match l with
           | [] => Some []
           | j :: r =>
               match decode j, items r with
               | Some v, Some vs => Some (v :: vs)
               | _, _ => None
               end
           end) l
  | JObj kvs =>
      AMap <$>
        (fix members (l : list (string * json)) (acc : gmap string any) :=
           match l with
           | [] => Some acc
           | (k, v) :: r =>
               match decode v with
               | Some a => members r (<[k := a]> acc)
               | None => None
               end
           end) kvs ∅
  end.

(** The same loop over the members, named, for decoding a whole frame into
    [map[string]interface{}]. *)
Fixpoint decode_members (l : list (string * json)) (acc : gmap string any)
  : option (gmap string any) :=
  match l with
  | [] => Some acc
  | (k, v) :: r =>
      match decode v with
      | Some a => decode_members r (<[k := a]> acc)
      | None => None
      end
  end.

(** A frame read from the socket: bytes that are not a JSON text, or the
    document they spell ([json.Unmarshal] checks the whole text before it
    stores anything). *)
Inductive frame :=
| NotJson
| Json (doc : json).

(** [encoding/json] matches a key with a struct field by its exact name
    and, failing that, without regard to case.  For the names ["type"] and
    ["data"] case only concerns the ASCII letters. *)
Definition lower_ascii (c : ascii) : ascii :=
  let n := nat_of_ascii c in
  if (65 <=? n)%nat && (n <=? 90)%nat then ascii_of_nat (n + 32) else c.

Fixpoint lower (s : string) : string :=
  match s with
  | EmptyString => EmptyString
  | String c r => String (lower_ascii c) (lower r)
  end.

Definition names (field key : string) : bool := String.eqb (lower key) field.

(** The anonymous struct [listen] decodes into:
    [struct { Type string `json:"type"`; Data interface{} `json:"data"` }]. *)
Record eventData := mkEventData { Type_ : string; Data : any }.

(** One pass over the members, in order.  A string sets [Type]; [null]
    leaves it; any other value is a type error, which [Unmarshal] reports
    once the pass is over.  [Data] takes whatever value decodes.  The value
    of a member that names neither field is skipped, not decoded. *)
Fixpoint unmarshal_members (l : list (string * json)) (e : eventData) (ok : bool)
  : eventData * bool :=
  match l with
  | [] => (e, ok)
  | (k, v) :: r =>
      if names "type" k then
        match v with
        | JStr s => unmarshal_members r (mkEventData s (Data e)) ok
        | JNull => unmarshal_members r e ok
        | _ => unmarshal_members r e false
        end
      else if names "data" k then
        match decode v with
        | Some a => unmarshal_members r (mkEventData (Type_ e) a) ok
        | None => unmarshal_members r e false
        end
      else unmarshal_members r e ok
  end.

(** [json.Unmarshal(message, &eventData)]; [None] is a non-nil error. *)
Definition Unmarshal_eventData (message : frame) : option eventData :=
  match message with
  | NotJson => None
  | Json JNull => Some (mkEventData "" ANil)
  | Json (JObj kvs) =>
      let '(e, ok) := unmarshal_members kvs (mkEventData "" ANil) true in
      if ok then Some e else None
  | Json _ => None
  end.

(** [json.Unmarshal(message, &msgData)] with
    [msgData map[string]interface{}]. *)
Definition Unmarshal_map (message : frame) : option (gmap string any) :=
  match message with
  | NotJson => None
  | Json JNull => Some ∅
  | Json (JObj kvs) => decode_members kvs ∅
  | Json _ => None
  end.

(** ** The client *)

(** A [*websocket.Conn]; handles are told apart by a number. *)
Definition Conn := nat.

(** How a call of a handler ends. *)
Inductive outcome := Returns | Panics | Blocks.

(** A registered callback, [func(interface{})]. *)
Definition Handler : Type := any → outcome.

Inductive error :=
| ErrNotConnected                (* fmt.Errorf("websocket not connected") *)
| ErrDial (cause : string)       (* the error of DefaultDialer.Dial *)
| ErrWrite (cause : string).     (* the error of conn.WriteJSON *)

(** What a method does to the world, in program order. *)
Inductive Effect :=
| Dialed (url : string)
| GoListen
| Closed (h : Conn)
| Wrote (h : Conn) (v : any)
| Logged (msg : string)
| Slept (d : Z)
| Go (handler : Handler) (arg : any).

(** The answers of the network library. *)
Record Network := mkNetwork {
  Dial : string → Conn + string;
  WriteJSON : Conn → any → option string
}.

(** The struct, without its mutex: every method body below runs with the
    lock held or touches the state in one locked step. *)
Record ClientWebSocketClient := mkClient {
  apiKey : string;
  wsUrl : string;
  accessToken : string;
  conn : option Conn;
  isConnected : bool;
  eventHandlers : gmap string (list Handler);
  autoReconnect : bool;
  reconnectInterval : Z;
  maxReconnectAttempts : Z
}.

Definition NewClientWebSocketClient (apiKey wsUrl : string) (autoReconnect : bool)
    (interval : Z) (maxAttempts : Z) : ClientWebSocketClient :=
  {| apiKey := apiKey; wsUrl := wsUrl; accessToken := "";
     conn := None; isConnected := false; eventHandlers := ∅;
     autoReconnect := autoReconnect; reconnectInterval := interval;
     maxReconnectAttempts := maxAttempts |}.

(** The options of the façade ([client.go]) and the part of [NewClient]
    that builds the WebSocket client from them; a [time.Duration] counts
    nanoseconds.  [None] is the panic on an empty API key. *)
Record ClientOptions := mkOptions {
  ApiKey : string;
  ApiUrl : string;
  WsUrl : string;
  AutoReconnect : bool;
  ReconnectInterval : Z;
  MaxReconnectAttempts : Z
}.

Definition NewClient (options : ClientOptions) : option ClientWebSocketClient :=
  if String.eqb (ApiKey options) "" then None
  else
    let params :=
      {| ApiKey := ApiKey options;
         ApiUrl := if String.eqb (ApiUrl options) "" then "http://localhost:3000"
                   else ApiUrl options;
         WsUrl := if String.eqb (WsUrl options) "" then "ws://localhost:8090"
                  else WsUrl options;
         AutoReconnect := AutoReconnect options;
         ReconnectInterval := if (ReconnectInterval options =? 0)%Z then 5 * 1000000000
                              else ReconnectInterval options;
         MaxReconnectAttempts := if (MaxReconnectAttempts options =? 0)%Z then 10
                                 else MaxReconnectAttempts options |} in
    Some (NewClientWebSocketClient (ApiKey params) (WsUrl params)
            (AutoReconnect params) (ReconnectInterval params)
            (MaxReconnectAttempts params)).

Definition set_conn (h : Conn) (c : ClientWebSocketClient) :=
  {| apiKey := apiKey c; wsUrl := wsUrl c; accessToken := accessToken c;
     conn := Some h; isConnected := true; eventHandlers := eventHandlers c;
     autoReconnect := autoReconnect c; reconnectInterval := reconnectInterval c;
     maxReconnectAttempts := maxReconnectAttempts c |}.

Definition set_isConnected (b : bool) (c : ClientWebSocketClient) :=
  {| apiKey := apiKey c; wsUrl := wsUrl c; accessToken := accessToken c;
     conn := conn c; isConnected := b; eventHandlers := eventHandlers c;
     autoReconnect := autoReconnect c; reconnectInterval := reconnectInterval c;
     maxReconnectAttempts := maxReconnectAttempts c |}.

Definition set_eventHandlers (t : gmap string (list Handler))
    (c : ClientWebSocketClient) :=
  {| apiKey := apiKey c; wsUrl := wsUrl c; accessToken := accessToken c;
     conn := conn c; isConnected := isConnected c; eventHandlers := t;
     autoReconnect := autoReconnect c; reconnectInterval := reconnectInterval c;
     maxReconnectAttempts := maxReconnectAttempts c |}.

Definition set_accessToken (t : string) (c : ClientWebSocketClient) :=
  {| apiKey := apiKey c; wsUrl := wsUrl c; accessToken := t;
     conn := conn c; isConnected := isConnected c;
     eventHandlers := eventHandlers c;
     autoReconnect := autoReconnect c; reconnectInterval := reconnectInterval c;
     maxReconnectAttempts := maxReconnectAttempts c |}.

Definition set_maxReconnectAttempts (n : Z) (c : ClientWebSocketClient) :=
  {| apiKey := apiKey c; wsUrl := wsUrl c; accessToken := accessToken c;
     conn := conn c; isConnected := isConnected c;
     eventHandlers := eventHandlers c;
     autoReconnect := autoReconnect c; reconnectInterval := reconnectInterval c;
     maxReconnectAttempts := n |}.

(** [fmt.Sprintf("%s/ws?token=%s", c.wsUrl, c.accessToken)] *)
Definition url (c : ClientWebSocketClient) : string :=
  wsUrl c ++ "/ws?token=" ++ accessToken c.

Definition Connect (net : Network) (c : ClientWebSocketClient)
  : ClientWebSocketClient * option error * list Effect :=
  if isConnected c then (c, None, [])
  else
    match Dial net (url c) with
    | inr cause => (c, Some (ErrDial cause), [Dialed (url c)])
    | inl h => (set_conn h c, None, [Dialed (url c); GoListen])
    end.

Definition Disconnect (c : ClientWebSocketClient)
  : ClientWebSocketClient * list Effect :=
  match conn c with
  | Some h => (set_isConnected false c, [Closed h])
  | None => (c, [])
  end.

(** A method that returns, or a nil pointer dereferenced. *)
Inductive result (A : Type) :=
| Return (a : A)
| NilDereference.
Arguments Return {A} a.
Arguments NilDereference {A}.

Definition Send (net : Network) (c : ClientWebSocketClient) (data : any)
  : result (option error) * list Effect :=
  if negb (isConnected c) then (Return (Some ErrNotConnected), [])
  else
    match conn c with
    | Some h => (Return (ErrWrite <$> WriteJSON net h data), [Wrote h data])
    | None => (NilDereference, [])
    end.

(** [c.eventHandlers[event]]: a missing key reads as the nil slice. *)
Definition handlers_of (t : gmap string (list Handler)) (event : string)
  : list Handler :=
  default [] (t !! event).

Definition On (event : string) (callback : Handler) (c : ClientWebSocketClient)
  : ClientWebSocketClient :=
  set_eventHandlers
    (<[event := (handlers_of (eventHandlers c) event ++ [callback])%list]>
       (eventHandlers c))
    c.

Definition SetAccessToken (token : string) (c : ClientWebSocketClient) :=
  set_accessToken token c.

Definition IsConnectedStatus (c : ClientWebSocketClient) : bool := isConnected c.

Definition Subscribe (net : Network) (c : ClientWebSocketClient) (subscription : any)
  : result (option error) * list Effect :=
  Send net c (AMap (<["type" := AStr "subscribe"]> (<["data" := subscription]> ∅))).

(** [for _, handler := range handlers { go handler(data) }] *)
Definition dispatch (t : gmap string (list Handler)) (event : string) (data : any)
  : list Effect :=
  map (λ handler, Go handler data) (handlers_of t event).

Definition Emit (event : string) (data : any) (c : ClientWebSocketClient)
  : list Effect :=
  dispatch (eventHandlers c) event data.

(** ** The read loop *)

(** What [c.conn.ReadMessage()] answers. *)
Inductive ReadResult :=
| ReadOk (message : frame)
| ReadFail (cause : string).

Section Listen.
(** The body of the loop after a successful read; the two copies of the
    file differ in it only. *)
Variable body : gmap string (list Handler) → frame → list Effect.

(** The [for] loop over the answers of successive reads.  The flag tells
    whether the loop returned (a read failed) or still waits for a read
    when the answers run out. *)
Fixpoint listen_loop (c : ClientWebSocketClient) (reads : list ReadResult)
  : list Effect * bool :=
  match reads with
  | [] => ([], false)
  | ReadFail cause :: _ => ([Logged ("ws read error: " ++ cause)], true)
  | ReadOk message :: rest =>
      let '(t, returned) := listen_loop c rest in
      ((body (eventHandlers c) message ++ t)%list, returned)
  end.

(** The deferred function, run when the loop returns. *)
Definition listen_deferred (net : Network) (c : ClientWebSocketClient)
  : ClientWebSocketClient * list Effect :=
  let c1 := set_isConnected false c in
  if autoReconnect c1 then
    let '(c2, _, t) := Connect net c1 in
    (c2, Slept (reconnectInterval c1) :: t)
  else (c1, []).

Definition listen (net : Network) (c : ClientWebSocketClient)
    (reads : list ReadResult) : ClientWebSocketClient * list Effect :=
  let '(t, returned) := listen_loop c reads in
  if returned then
    let '(c', t') := listen_deferred net c in (c', (t ++ t')%list)
  else (c, t).
End Listen.

(** [listen] of [src/websocket_client.go]. *)
Module Flat.
Definition body (handlers : gmap string (list Handler)) (message : frame)
  : list Effect :=
  match Unmarshal_eventData message with
  | None => []
  | Some e => dispatch handlers (Type_ e) (Data e)
  end.

Definition listen := listen body.
End Flat.

(** [listen] of the second copy of the file. *)
Module Router.
(** [for k, v := range msgData { transformedMsg[k] = v }] *)
Definition copy (msgData : gmap string any) : gmap string any :=
  map_fold (λ k v acc, <[k := v]> acc) ∅ msgData.

Definition alias (from to : string) (msgData transformedMsg : gmap string any)
  : gmap string any :=
  match msgData !! from with
  | Some v => <[to := v]> transformedMsg
  | None => transformedMsg
  end.

Definition transform (msgData : gmap string any) : gmap string any :=
  alias "message" "content" msgData
    (alias "conversationID" "conversationId" msgData
       (alias "source" "senderId" msgData (copy msgData))).

(** [fmt.Sprintf("conversation:%s:message.create", convID)] *)
Definition eventKey (convID : string) : string :=
  "conversation:" ++ convID ++ ":message.create".

Definition body (handlers : gmap string (list Handler)) (message : frame)
  : list Effect :=
  match Unmarshal_eventData message with
  | None => []
  | Some e =>
      if String.eqb (Type_ e) "message" then
        match Unmarshal_map message with
        | None => []
        | Some msgData =>
            let transformedMsg := transform msgData in
            (dispatch handlers "message.create" (AMap transformedMsg) ++
             match transformedMsg !! "conversationId" with
             | Some (AStr convID) =>
                 dispatch handlers (eventKey convID) (AMap transformedMsg)
             | _ => []
             end)%list
        end
      else if String.eqb (Type_ e) "event" then
        dispatch handlers (Type_ e) (Data e)
      else if String.eqb (Type_ e) "subscribed" then
        [Logged "Subscribed to events"]
      else if String.eqb (Type_ e) "pong" then []
      else dispatch handlers (Type_ e) (Data e)
  end.

Definition listen := listen body.
End Router.

(** ** The process around the read loop

    [go handler(data)] starts a goroutine that runs the call and nothing
    else: no deferred function, no [recover].  A panic that reaches the top
    of a goroutine ends the program, the read loop with it. *)
Record Process := mkProcess {
  client : ClientWebSocketClient;
  goroutines : list (Handler * any);
  alive : bool
}.

(** The calls started by the [go] statements of a trace. *)
Definition spawned (t : list Effect) : list (Handler * any) :=
  omap (λ e, match e with Go h v => Some (h, v) | _ => None end) t.

Section Scheduling.
Variable body : gmap string (list Handler) → frame → list Effect.

(** The read loop takes one frame. *)
Definition deliver (message : frame) (p : Process) : option Process :=
  if alive p then
    Some (mkProcess (client p)
            (goroutines p ++ spawned (body (eventHandlers (client p)) message))%list
            true)
  else None.

(** The scheduler runs the [i]-th started call. *)
Definition run (i : nat) (p : Process) : option Process :=
  if alive p then
    match goroutines p !! i with
    | None => None
    | Some (h, v) =>
        match h v with
        | Returns => Some (mkProcess (client p) (delete i (goroutines p)) true)
        | Blocks => Some p
        | Panics => Some (mkProcess (client p) (delete i (goroutines p)) false)
        end
    end
  else None.
End Scheduling.

(** ** The HTTP client

    [ClientHttpClient], from the third Go file of the package.  The
    libraries it calls are the environment: [json.Marshal], [http.NewRequest]
    and the answers of [client.Do], the [n]-th call of one [Request] getting
    the [n]-th answer. *)
Module Http.

(** The request handed to [client.Do].  [Header.Set] replaces the value of
    a name; the names set here differ from each other whatever their case. *)
Record HttpRequest := mkHttpRequest {
  Method : string;
  URL : string;
  Header : gmap string string;
  Body : option string
}.

(** A response: its status, the text of its body, and what a
    [json.Decoder] makes of the first value of that text. *)
Record Response := mkResponse {
  StatusCode : Z;
  Text : string;
  Value : frame
}.

Record Web := mkWeb {
  Marshal : any → string + string;
  NewRequest : string → string → option string;
  Do : nat → HttpRequest → Response + string
}.

Inductive Error :=
| ErrMarshal (cause : string)   (* "failed to marshal request body: %w" *)
| ErrCreate (cause : string)    (* "failed to create request: %w" *)
| ErrRequest (cause : string)   (* "request failed: %w" *)
| ErrRetry (cause : string)     (* "retry request failed: %w" *)
| ErrApi (status : Z) (body : string). (* "api error: status=%d body=%s" *)

(** The struct.  Of what the callback, a [func() error], may do, a call of
    [Request] sees the access token it leaves in the client and the error it
    returns. *)
Record ClientHttpClient := mkClientHttpClient {
  apiKey : string;
  apiUrl : string;
  accessToken : string;
  refreshTokenCallback : option (string → string * option string)
}.

Definition NewClientHttpClient (apiKey apiUrl : string) : ClientHttpClient :=
  {| apiKey := apiKey; apiUrl := apiUrl; accessToken := "";
     refreshTokenCallback := None |}.

Definition SetAccessToken (token : string) (c : ClientHttpClient) : ClientHttpClient :=
  {| apiKey := apiKey c; apiUrl := apiUrl c; accessToken := token;
     refreshTokenCallback := refreshTokenCallback c |}.

Definition SetRefreshTokenCallback (callback : string → string * option string)
    (c : ClientHttpClient) : ClientHttpClient :=
  {| apiKey := apiKey c; apiUrl := apiUrl c; accessToken := accessToken c;
     refreshTokenCallback := Some callback |}.

(** The end of [Request], from the response it settled on: an error for a
    status of 400 or more, else the body decoded as a map, and the nil map
    (which reads as the empty one) when the body does not decode. *)
Definition conclude (resp : Response) : gmap string any + Error :=
  if (400 <=? StatusCode resp)%Z then inr (ErrApi (StatusCode resp) (Text resp))
  else
    match Unmarshal_map (Value resp) with
    | Some result => inl result
    | None => inl ∅
    end.

(** [Request]: the client after the call, what is returned, and the
    requests handed to [client.Do], in order.  [ANil] is the nil body. *)
Definition Request (web : Web) (c : ClientHttpClient) (method path : string)
    (body : any) (skipAuth : bool)
  : ClientHttpClient * (gmap string any + Error) * list HttpRequest :=
  let marshalled :=
    match body with
    | ANil => inl None
    | _ => match Marshal web body with
           | inl jsonBody => inl (Some jsonBody)
           | inr cause => inr cause
           end
    end in
  match marshalled with
  | inr cause => (c, inr (ErrMarshal cause), [])
  | inl bodyReader =>
      match NewRequest web method (apiUrl c ++ path) with
      | Some cause => (c, inr (ErrCreate cause), [])
      | None =>
          let header :=
            <["x-api-key" := apiKey c]> (<["Content-Type" := "application/json"]> ∅) in
          let header :=
            if negb skipAuth && negb (String.eqb (accessToken c) "")
            then <["Authorization" := "Bearer " ++ accessToken c]> header
            else header in
          let req := mkHttpRequest method (apiUrl c ++ path) header bodyReader in
          match Do web 0 req with
          | inr cause => (c, inr (ErrRequest cause), [req])
          | inl resp =>
              match refreshTokenCallback c with
              | Some callback =>
                  if (StatusCode resp =? 401)%Z && negb skipAuth then
                    let '(token, err) := callback (accessToken c) in
                    let c := SetAccessToken token c in
                    match err with
                    | Some _ => (c, conclude resp, [req])
                    | None =>
                        let retry :=
                          mkHttpRequest method (URL req)
                            (<["Authorization" := "Bearer " ++ accessToken c]> header)
                            match body with
                            | ANil => bodyReader
                            | _ => match Marshal web body with
                                   | inl jsonBody => Some jsonBody
                                   | inr _ => Some ""
                                   end
                            end in
                        match Do web 1 retry with
                        | inr cause => (c, inr (ErrRetry cause), [req; retry])
                        | inl resp => (c, conclude resp, [req; retry])
                        end
                    end
                  else (c, conclude resp, [req])
              | None => (c, conclude resp, [req])
              end
          end
      end
  end.
End Http.

(** ** The façade ([client.go]) *)

(** [fmt.Sprintf] with the verbs [%.0f] (on a [float64], here its literal)
    and [%v]. *)
Record Formats := mkFormats {
  Sprintf_0f : string → string;
  Sprintf_v : any → string
}.

(** A call that returns, or panics. *)
Inductive ending (A : Type) :=
| Returned (a : A)
| Panicked.
Arguments Returned {A} a.
Arguments Panicked {A}.

Module Facade.

Record AuthResponse := mkAuthResponse {
  AccessToken : string;
  RefreshToken : string;
  UserId : string;
  ExpiresIn : Z
}.

Record PaanjClient := mkPaanjClient {
  apiKey : string;
  wsClient : ClientWebSocketClient;
  httpClient : Http.ClientHttpClient;
  options : ClientOptions;
  params : ClientOptions;
  accessToken : string;
  refreshToken : string;
  userId : string
}.

(** [RefreshAccessToken] returns [nil, nil] and touches nothing; the
    callback [NewClient] installs returns its error, [nil]. *)
Definition RefreshAccessToken (p : PaanjClient) : PaanjClient * option AuthResponse :=
  (p, None).

Definition NewClient (options : ClientOptions) : option PaanjClient :=
  if String.eqb (ApiKey options) "" then None
  else
    let params :=
      {| ApiKey := ApiKey options;
         ApiUrl := if String.eqb (ApiUrl options) "" then "http://localhost:3000"
                   else ApiUrl options;
         WsUrl := if String.eqb (WsUrl options) "" then "ws://localhost:8090"
                  else WsUrl options;
         AutoReconnect := AutoReconnect options;
         ReconnectInterval := if (ReconnectInterval options =? 0)%Z then 5 * 1000000000
                              else ReconnectInterval options;
         MaxReconnectAttempts := if (MaxReconnectAttempts options =? 0)%Z then 10
                                 else MaxReconnectAttempts options |} in
    Some {| apiKey := ApiKey options;
            options := options;
            params := params;
            wsClient :=
              NewClientWebSocketClient (ApiKey params) (WsUrl params)
                (AutoReconnect params) (ReconnectInterval params)
                (MaxReconnectAttempts params);
            httpClient :=
              Http.SetRefreshTokenCallback (λ token, (token, None))
                (Http.NewClientHttpClient (ApiKey params) (ApiUrl params));
            accessToken := ""; refreshToken := ""; userId := "" |}.

Definition setSession (session : AuthResponse) (p : PaanjClient) : PaanjClient :=
  {| apiKey := apiKey p; options := options p; params := params p;
     wsClient := SetAccessToken (AccessToken session) (wsClient p);
     httpClient := Http.SetAccessToken (AccessToken session) (httpClient p);
     accessToken := AccessToken session;
     refreshToken := RefreshToken session;
     userId := UserId session |}.

(** The map both authentication calls emit. *)
Definition session_event (userId accessToken refreshToken : string) : any :=
  AMap (<["userId" := AStr userId]>
          (<["accessToken" := AStr accessToken]>
             (<["refreshToken" := AStr refreshToken]> ∅))).

Definition AuthenticateAnonymous (web : Http.Web) (fmt : Formats) (p : PaanjClient)
    (userData : gmap string any) (privateData : any)
  : PaanjClient * ending (AuthResponse + Http.Error)
    * list Http.HttpRequest * list Effect :=
  let body := AMap (<["user" := AMap userData]> (<["private" := privateData]> ∅)) in
  let '(http, answer, sent) :=
    Http.Request web (httpClient p) "POST" "/api/v1/users/anonymous" body true in
  let p :=
    {| apiKey := apiKey p; options := options p; params := params p;
       wsClient := wsClient p; httpClient := http;
       accessToken := accessToken p; refreshToken := refreshToken p;
       userId := userId p |} in
  match answer with
  | inr err => (p, Returned (inr err), sent, [])
  | inl resp =>
      let userId :=
        match resp !! "userId" with
        | Some (AStr v) => v
        | Some (AFloat v) => Sprintf_0f fmt v
        | Some v => Sprintf_v fmt v
        | None => Sprintf_v fmt ANil
        end in
      match resp !! "accessToken", resp !! "refreshToken" with
      | Some (AStr access), Some (AStr refresh) =>
          let authResp := mkAuthResponse access refresh userId 0 in
          let p := setSession authResp p in
          (p, Returned (inl authResp), sent,
           Emit "user.created" (session_event userId access refresh) (wsClient p))
      | _, _ => (p, Panicked, sent, [])
      end
  end.

Definition AuthenticateWithToken (token userId refreshToken : string) (p : PaanjClient)
  : PaanjClient * list Effect :=
  let p :=
    {| apiKey := apiKey p; options := options p; params := params p;
       wsClient := SetAccessToken token (wsClient p);
       httpClient := Http.SetAccessToken token (httpClient p);
       accessToken := token; refreshToken := refreshToken; userId := userId |} in
  (p, Emit "token.updated" (session_event userId token refreshToken) (wsClient p)).

Definition with_wsClient (ws : ClientWebSocketClient) (p : PaanjClient) : PaanjClient :=
  {| apiKey := apiKey p; options := options p; params := params p;
     wsClient := ws; httpClient := httpClient p;
     accessToken := accessToken p; refreshToken := refreshToken p;
     userId := userId p |}.

Definition Connect (net : Network) (p : PaanjClient)
  : PaanjClient * option error * list Effect :=
  let '(ws, err, t) := Connect net (wsClient p) in (with_wsClient ws p, err, t).

Definition Disconnect (p : PaanjClient) : PaanjClient * list Effect :=
  let '(ws, t) := Disconnect (wsClient p) in (with_wsClient ws p, t).

Definition IsConnected (p : PaanjClient) : bool := IsConnectedStatus (wsClient p).

Definition IsAuthenticated (p : PaanjClient) : bool :=
  negb (String.eqb (accessToken p) "").

Definition GetUserId (p : PaanjClient) : string := userId p.

Definition Subscribe (net : Network) (p : PaanjClient) (subscription : any)
  : result (option error) * list Effect :=
  Subscribe net (wsClient p) subscription.

Definition On (event : string) (callback : Handler) (p : PaanjClient) : PaanjClient :=
  with_wsClient (On event callback (wsClient p)) p.
End Facade.

(** ** Observations on states and traces *)

(** The value a key has after aliasing: the key it aliases wins, the
    frame's own value is the fallback. *)
Definition aliased (msgData : gmap string any) (from to : string) : option any :=
  match msgData !! from with
  | Some v => Some v
  | None => msgData !! to
  end.

(** Whenever the client says it is connected it holds a connection; the
    read loop and [Send] rely on it. *)
Definition connected_has_conn (c : ClientWebSocketClient) : Prop :=
  isConnected c = true → is_Some (conn c).


(** The URLs dialed and the pauses taken in a trace. *)
Definition dialed (t : list Effect) : list string :=
  omap (λ e, match e with Dialed u => Some u | _ => None end) t.

Definition slept (t : list Effect) : list Z :=
  omap (λ e, match e with Slept d => Some d | _ => None end) t.

(** A loop body that neither dials nor sleeps. *)
Definition loop_body_quiet (body : gmap string (list Handler) → frame → list Effect) : Prop :=
  ∀ handlers message, dialed (body handlers message) = [] ∧ slept (body handlers message) = [].

(** Replacing the handlers of a trace. *)
Definition relabel (f : Handler → Handler) (e : Effect) : Effect :=
  match e with
  | Go h v => Go (f h) v
  | other => other
  end.

(** The parts of [Request]: the body it marshals, the request it builds
    first, and the request it sends again after a refresh. *)
Definition marshalled (web : Http.Web) (body : any) : option string + string :=
  match body with
  | ANil => inl None
  | _ => match Http.Marshal web body with
         | inl jsonBody => inl (Some jsonBody)
         | inr cause => inr cause
         end
  end.

Definition first_request (c : Http.ClientHttpClient) (method path : string)
    (bodyReader : option string) (skipAuth : bool) : Http.HttpRequest :=
  Http.mkHttpRequest method (Http.apiUrl c ++ path)
    (if negb skipAuth && negb (String.eqb (Http.accessToken c) "")
     then <["Authorization" := "Bearer " ++ Http.accessToken c]>
            (<["x-api-key" := Http.apiKey c]>
               (<["Content-Type" := "application/json"]> ∅))
     else <["x-api-key" := Http.apiKey c]>
            (<["Content-Type" := "application/json"]> ∅))
    bodyReader.

Definition retry_request (token : string) (req : Http.HttpRequest) : Http.HttpRequest :=
  Http.mkHttpRequest (Http.Method req) (Http.URL req)
    (<["Authorization" := "Bearer " ++ token]> (Http.Header req)) (Http.Body req).

(** The user id [AuthenticateAnonymous] reads from the answer. *)
Definition userId_of (fmt : Formats) (resp : gmap string any) : string :=
  match resp !! "userId" with
  | Some (AStr v) => v
  | Some (AFloat v) => Sprintf_0f fmt v
  | Some v => Sprintf_v fmt v
  | None => Sprintf_v fmt ANil
  end.

Definition anonymous_body (userData : gmap string any) (privateData : any) : any :=
  AMap (<["user" := AMap userData]> (<["private" := privateData]> ∅)).

(** The façade and its two clients hold the same access token. *)
Definition tokens_agree (p : Facade.PaanjClient) : Prop :=
  accessToken (Facade.wsClient p) = Facade.accessToken p ∧
  Http.accessToken (Facade.httpClient p) = Facade.accessToken p.

(** [Connect] called once for each answer of the network, in succession. *)
Fixpoint Connect_in_succession (nets : list Network) (c : ClientWebSocketClient)
  : ClientWebSocketClient * list (option error) * list Effect :=
  match nets with
  | [] => (c, [], [])
  | net :: rest =>
      let '(c1, err, t1) := Connect net c in
      let '(c2, errs, t2) := Connect_in_succession rest c1 in
      (c2, err :: errs, (t1 ++ t2)%list)
  end.

(** ** Sequences of calls

    What a user of the client, and the read loops it starts, can do to it:
    each call runs with the lock held, or, for a read loop, from the reads it
    is given to its end. *)
Inductive Call :=
| CallConnect (net : Network)
| CallDisconnect
| CallSend (net : Network) (data : any)
| CallSubscribe (net : Network) (subscription : any)
| CallOn (event : string) (callback : Handler)
| CallSetAccessToken (token : string)
| CallEmit (event : string) (data : any)
| CallListenFlat (net : Network) (reads : list ReadResult)
| CallListenRouter (net : Network) (reads : list ReadResult).

Definition call (k : Call) (c : ClientWebSocketClient)
  : ClientWebSocketClient * list Effect :=
  match k with
  | CallConnect net => ((Connect net c).1.1, (Connect net c).2)
  | CallDisconnect => Disconnect c
  | CallSend net data => (c, (Send net c data).2)
  | CallSubscribe net subscription => (c, (Subscribe net c subscription).2)
  | CallOn event callback => (On event callback c, [])
  | CallSetAccessToken token => (SetAccessToken token c, [])
  | CallEmit event data => (c, Emit event data c)
  | CallListenFlat net reads => Flat.listen net c reads
  | CallListenRouter net reads => Router.listen net c reads
  end.

Fixpoint calls (ks : list Call) (c : ClientWebSocketClient)
  : ClientWebSocketClient * list Effect :=
  match ks with
  | [] => (c, [])
  | k :: rest =>
      let '(c1, t1) := call k c in
      let '(c2, t2) := calls rest c1 in
      (c2, (t1 ++ t2)%list)
  end.

(** ** Handlers, tables, frames, networks and clients of the examples *)

Definition quiet : Handler := λ _, Returns.
Definition faulty : Handler := λ _, Panics.
Definition stuck : Handler := λ _, Blocks.

(** [{"type":"message","source":"u1","conversationID":"c1","message":"hi"}] *)
Definition chat_frame : frame :=
  Json (JObj [("type", JStr "message"); ("source", JStr "u1");
              ("conversationID", JStr "c1"); ("message", JStr "hi")]).


Definition chat_handlers : gmap string (list Handler) :=
  <["message.create" := [quiet]]>
    (<["conversation:c1:message.create" := [stuck]]> ∅).

(** [{"type":"message","source":"u1","senderId":"u2","conversationID":5}] *)
Definition odd_chat_frame : frame :=
  Json (JObj [("type", JStr "message"); ("source", JStr "u1");
              ("senderId", JStr "u2"); ("conversationID", JNum "5")]).

Definition odd_chat_map : gmap string any :=
  <["type" := AStr "message"]>
    (<["source" := AStr "u1"]>
       (<["senderId" := AStr "u2"]> (<["conversationID" := AFloat "5"]> ∅))).

Definition odd_chat_handlers : gmap string (list Handler) :=
  <["message.create" := [quiet]]>
    (<["conversation:5:message.create" := [stuck]]> ∅).

(** [{"type":"message","conversationId":"c1"}]: the key is spelled the way
    the alias is, the frame has no [conversationID]. *)
Definition lowercase_chat_frame : frame :=
  Json (JObj [("type", JStr "message"); ("conversationId", JStr "c1")]).

Definition lowercase_chat_map : gmap string any :=
  <["type" := AStr "message"]> (<["conversationId" := AStr "c1"]> ∅).


(** [{"type":"boom"}] *)
Definition boom_frame : frame := Json (JObj [("type", JStr "boom")]).

Definition confirmation_handlers : gmap string (list Handler) :=
  <["subscribed" := [quiet; faulty]]> (<["pong" := [stuck]]> ∅).

Definition unnamed_handlers : gmap string (list Handler) := <["" := [quiet]]> ∅.

(** A network where one URL answers with the socket 7 and writing [nil]
    fails. *)
Definition lossy_network : Network :=
  {| Dial := λ u, if String.eqb u "ws://host/ws?token=t" then inl 7%nat else inr "refused";
     WriteJSON := λ h v, match v with ANil => Some "broken pipe" | _ => None end |}.

Definition greeting_client : ClientWebSocketClient :=
  On "greeting" quiet (NewClientWebSocketClient "key" "ws://host" false 5 10).

Definition fragile_client : ClientWebSocketClient :=
  On "boom" faulty (NewClientWebSocketClient "key" "ws://host" false 5 10).

Definition fresh_client : ClientWebSocketClient :=
  SetAccessToken "t" (NewClientWebSocketClient "key" "ws://host" true 5 10).

Definition connected_client : ClientWebSocketClient :=
  (Connect lossy_network fresh_client).1.1.

Definition offline_client : ClientWebSocketClient :=
  NewClientWebSocketClient "key" "ws://elsewhere" true 5 10.

(** A server that answers 401 to a request without the header
    [Authorization: Bearer fresh] and 200 with the body [{}] to one with it,
    and a client whose callback stores the token [fresh]. *)
Definition guarded_web : Http.Web :=
  {| Http.Marshal := λ _, inl "{}";
     Http.NewRequest := λ _ _, None;
     Http.Do := λ _ req,
       match Http.Header req !! "Authorization" with
       | Some "Bearer fresh" => inl (Http.mkResponse 200 "{}" (Json (JObj [])))
       | _ => inl (Http.mkResponse 401 "expired" NotJson)
       end |}.

Definition stale_http_client : Http.ClientHttpClient :=
  Http.SetRefreshTokenCallback (λ _, ("fresh", None))
    (Http.SetAccessToken "stale" (Http.NewClientHttpClient "key" "http://api")).

(** A string between double quotes. *)
Definition quoted (s : string) : string :=
  String (ascii_of_nat 34) (s ++ String (ascii_of_nat 34) EmptyString).

(** A server that answers every request with 200 and the session
    [{"userId":42,"accessToken":"at","refreshToken":"rt"}]. *)
Definition signup_web : Http.Web :=
  {| Http.Marshal := λ _, inl "{}";
     Http.NewRequest := λ _ _, None;
     Http.Do := λ _ _,
       inl (Http.mkResponse 200
              ("{" ++ quoted "userId" ++ ":42," ++ quoted "accessToken" ++ ":"
                   ++ quoted "at" ++ "," ++ quoted "refreshToken" ++ ":"
                   ++ quoted "rt" ++ "}")
              (Json (JObj [("userId", JNum "42"); ("accessToken", JStr "at");
                           ("refreshToken", JStr "rt")]))) |}.

(** A server that answers 200 with a body that is not JSON. *)
Definition empty_web : Http.Web :=
  {| Http.Marshal := λ _, inl "{}";
     Http.NewRequest := λ _ _, None;
     Http.Do := λ _ _, inl (Http.mkResponse 200 "" NotJson) |}.

Definition plain_formats : Formats :=
  {| Sprintf_0f := λ lit, lit; Sprintf_v := λ _, "<nil>" |}.

Definition example_options : ClientOptions :=
  {| ApiKey := "key"; ApiUrl := ""; WsUrl := ""; AutoReconnect := false;
     ReconnectInterval := 0; MaxReconnectAttempts := 0 |}.

(** The client [NewClient] builds from [example_options], and the same
    client with a handler for each of the two session events. *)
Definition example_client : Facade.PaanjClient :=
  {| Facade.apiKey := "key";
     Facade.options := example_options;
     Facade.params :=
       {| ApiKey := "key"; ApiUrl := "http://localhost:3000";
          WsUrl := "ws://localhost:8090"; AutoReconnect := false;
          ReconnectInterval := 5000000000; MaxReconnectAttempts := 10 |};
     Facade.wsClient :=
       NewClientWebSocketClient "key" "ws://localhost:8090" false 5000000000 10;
     Facade.httpClient :=
       Http.SetRefreshTokenCallback (λ token, (token, None))
         (Http.NewClientHttpClient "key" "http://localhost:3000");
     Facade.accessToken := ""; Facade.refreshToken := ""; Facade.userId := "" |}.

Definition listening_client : Facade.PaanjClient :=
  Facade.On "token.updated" stuck (Facade.On "user.created" quiet example_client).

(** ** Facts about decoding *)

(** Decoding an object into an [interface{}] and decoding it into a map
    go through the same loop. *)
Lemma decode_object (kvs : list (string * json)) :
  decode (JObj kvs) = AMap <$> decode_members kvs ∅.
Proof. reflexivity. Qed.

(** Members that do not name [Type] leave it alone. *)
Lemma unmarshal_members_untyped (l : list (string * json)) (e : eventData) (ok : bool) :
  Forall (λ kv, names "type" kv.1 = false) l →
  Type_ (unmarshal_members l e ok).1 = Type_ e.
Proof.
  intros Hl. revert e ok. induction Hl as [|[k v] l Hk _ IH]; intros e ok; simpl; [done|].
  simpl in Hk. rewrite Hk.
  destruct (names "data" k); [|apply IH].
  destruct (decode v); [|apply IH]. by rewrite IH.
Qed.



(** The decoder on small frames: a key matches a field whatever its case,
    the last [type] wins, a [type] that is not a string is an error, and so
    is a number in [data] that no [float64] holds; such a number under a key
    the struct ignores is an error of the second decoding only. *)
Example envelope_case :
  Unmarshal_eventData (Json (JObj [("TYPE", JStr "a"); ("Data", JBool true)]))
    = Some (mkEventData "a" (ABool true)).
Proof. reflexivity. Qed.

Example envelope_last_type_wins :
  Unmarshal_eventData (Json (JObj [("type", JStr "a"); ("type", JStr "b")]))
    = Some (mkEventData "b" ANil).
Proof. reflexivity. Qed.

Example envelope_type_not_a_string :
  Unmarshal_eventData (Json (JObj [("type", JNum "5"); ("type", JStr "b")])) = None ∧
  Unmarshal_eventData (Json (JArr [JStr "type"])) = None ∧
  Unmarshal_eventData (Json JNull) = Some (mkEventData "" ANil).
Proof. repeat split; reflexivity. Qed.

Example envelope_number_out_of_range :
  Unmarshal_eventData (Json (JObj [("type", JStr "a"); ("data", JArr [JHuge "1e999"])]))
    = None ∧
  Unmarshal_eventData (Json (JObj [("type", JStr "a"); ("seq", JHuge "1e999")]))
    = Some (mkEventData "a" ANil) ∧
  Unmarshal_map (Json (JObj [("type", JStr "a"); ("seq", JHuge "1e999")])) = None.
Proof. repeat split; reflexivity. Qed.

(** ** Facts about the aliasing of a chat message *)

Lemma copy_id (msgData : gmap string any) : Router.copy msgData = msgData.
Proof.
  unfold Router.copy.
  apply (map_fold_weak_ind (λ r m, r = m)); [done|].
  by intros i x m r _ ->.
Qed.

Lemma alias_lookup (from to k : string) (msgData t : gmap string any) :
  Router.alias from to msgData t !! k =
    if decide (k = to) then
      match msgData !! from with Some v => Some v | None => t !! k end
    else t !! k.
Proof.
  unfold Router.alias. destruct (msgData !! from) as [v|]; case_decide; subst;
    rewrite ?lookup_insert_eq, ?lookup_insert_ne; done.
Qed.

Lemma transform_senderId (msgData : gmap string any) :
  Router.transform msgData !! "senderId" = aliased msgData "source" "senderId".
Proof.
  unfold Router.transform, aliased. rewrite !alias_lookup, copy_id.
  repeat case_decide; congruence.
Qed.

Lemma transform_conversationId (msgData : gmap string any) :
  Router.transform msgData !! "conversationId" =
    aliased msgData "conversationID" "conversationId".
Proof.
  unfold Router.transform, aliased. rewrite !alias_lookup, copy_id.
  repeat case_decide; congruence.
Qed.

Lemma transform_content (msgData : gmap string any) :
  Router.transform msgData !! "content" = aliased msgData "message" "content".
Proof.
  unfold Router.transform, aliased. rewrite !alias_lookup, copy_id.
  repeat case_decide; congruence.
Qed.

Lemma transform_other (msgData : gmap string any) (k : string) :
  k ≠ "senderId" → k ≠ "conversationId" → k ≠ "content" →
  Router.transform msgData !! k = msgData !! k.
Proof.
  intros H1 H2 H3. unfold Router.transform. rewrite !alias_lookup, copy_id.
  repeat case_decide; congruence.
Qed.

(** The [message] branch of the router, spelled out. *)
Lemma body_message (handlers : gmap string (list Handler)) (message : frame)
    (e : eventData) (msgData : gmap string any) :
  Unmarshal_eventData message = Some e → Type_ e = "message" →
  Unmarshal_map message = Some msgData →
  Router.body handlers message =
    (dispatch handlers "message.create" (AMap (Router.transform msgData)) ++
     match Router.transform msgData !! "conversationId" with
     | Some (AStr convID) =>
         dispatch handlers (Router.eventKey convID) (AMap (Router.transform msgData))
     | _ => []
     end)%list.
Proof.
  intros He Hty Hm. unfold Router.body. by rewrite He, Hty, Hm.
Qed.

(** ** C1: routing of a chat message *)




(** The frame of the specification's example: both lists of handlers get
    the same map, with the three aliases and the original fields. *)
Example chat_frame_dispatch :
  ∃ t, spawned (Router.body chat_handlers chat_frame) = [(quiet, AMap t); (stuck, AMap t)] ∧
       t !! "senderId" = Some (AStr "u1") ∧
       t !! "conversationId" = Some (AStr "c1") ∧
       t !! "content" = Some (AStr "hi") ∧
       t !! "source" = Some (AStr "u1") ∧
       t !! "conversationID" = Some (AStr "c1") ∧
       t !! "message" = Some (AStr "hi") ∧
       t !! "type" = Some (AStr "message").
Proof. eexists. split; [vm_compute; reflexivity|]. repeat split; reflexivity. Qed.

(** The older copy of the file has no such case: the same frame goes to
    the handlers registered under ["message"], with the [data] field. *)
Example chat_frame_flat :
  Flat.body chat_handlers chat_frame = dispatch chat_handlers "message" ANil.
Proof. reflexivity. Qed.

(** ** C10: when the conversation-scoped dispatch happens *)

(** C10, as stated, fails: the frame
    [{"type":"message","conversationId":"c1"}] has no [conversationID] at
    all, and the handler under ["conversation:c1:message.create"] is
    started all the same, because the test reads the transformed map, which
    keeps the frame's own [conversationId]. *)
Lemma conversation_dispatch_counterexample :
  Unmarshal_eventData lowercase_chat_frame = Some (mkEventData "message" ANil) ∧
  Unmarshal_map lowercase_chat_frame = Some lowercase_chat_map ∧
  lowercase_chat_map !! "conversationID" = None ∧
  spawned (Router.body chat_handlers lowercase_chat_frame)
    = [(quiet, AMap lowercase_chat_map); (stuck, AMap lowercase_chat_map)].
Proof. repeat split; vm_compute; reflexivity. Qed.

(** C10 (amended): for a frame with [type == "message"], the dispatch to
    ["conversation:<id>:message.create"] follows the dispatch to
    ["message.create"] exactly when the transformed map's [conversationId]
    is a string: when the frame's [conversationID] is the string [id]; or
    when the frame has no [conversationID] and its own [conversationId] is
    the string [id].  When [conversationID] is present with a value of
    another JSON type, only the ["message.create"] handlers are started. *)
Theorem conversation_dispatch_condition (handlers : gmap string (list Handler))
    (message : frame) (e : eventData) (msgData : gmap string any) :
  Unmarshal_eventData message = Some e → Type_ e = "message" →
  Unmarshal_map message = Some msgData →
  let t := AMap (Router.transform msgData) in
  let general := dispatch handlers "message.create" t in
  let scoped id := dispatch handlers ("conversation:" ++ id ++ ":message.create") t in
  match msgData !! "conversationID" with
  | Some (AStr id) => Router.body handlers message = (general ++ scoped id)%list
  | Some _ => Router.body handlers message = general
  | None =>
      match msgData !! "conversationId" with
      | Some (AStr id) => Router.body handlers message = (general ++ scoped id)%list
      | _ => Router.body handlers message = general
      end
  end.
Proof.
  intros He Hty Hm t general scoped. subst t general scoped.
  rewrite (body_message handlers message e msgData He Hty Hm).
  rewrite transform_conversationId. unfold aliased, Router.eventKey.
  destruct (msgData !! "conversationID") as [[]|];
    try (rewrite ?app_nil_r; reflexivity).
  destruct (msgData !! "conversationId") as [[]|];
    rewrite ?app_nil_r; reflexivity.
Qed.

Lemma conversation_dispatch_condition_witness :
  Unmarshal_eventData odd_chat_frame = Some (mkEventData "message" ANil) ∧
  Unmarshal_map odd_chat_frame = Some odd_chat_map ∧
  odd_chat_map !! "conversationID" = Some (AFloat "5") ∧
  Router.body odd_chat_handlers odd_chat_frame
    = dispatch odd_chat_handlers "message.create" (AMap (Router.transform odd_chat_map)).
Proof.
  split; [reflexivity|]. split; [reflexivity|]. split; [reflexivity|].
  exact (conversation_dispatch_condition odd_chat_handlers odd_chat_frame
           (mkEventData "message" ANil) odd_chat_map eq_refl eq_refl eq_refl).
Defined.

(** ** C5: [subscribed] and [pong] *)



(** The older copy of the file treats these two types like any other. *)
Example subscribed_flat :
  Flat.body confirmation_handlers (Json (JObj [("type", JStr "subscribed")]))
    = [Go quiet ANil; Go faulty ANil].
Proof. reflexivity. Qed.

(** ** C6: frames that do not decode, frames without a type *)

Lemma listen_loop_cons (body : gmap string (list Handler) → frame → list Effect)
    (c : ClientWebSocketClient) (message : frame) (reads : list ReadResult) :
  listen_loop body c (ReadOk message :: reads) =
    ((body (eventHandlers c) message ++ (listen_loop body c reads).1)%list,
     (listen_loop body c reads).2).
Proof. simpl. by destruct (listen_loop body c reads). Qed.

Lemma body_undecodable (handlers : gmap string (list Handler)) (message : frame) :
  Unmarshal_eventData message = None →
  Router.body handlers message = [] ∧ Flat.body handlers message = [].
Proof. intros He. unfold Router.body, Flat.body. by rewrite He. Qed.

(** An object none of whose members names [type] decodes, if it does,
    with the zero value of [Type]. *)
Lemma Unmarshal_eventData_untyped (kvs : list (string * json)) (e : eventData) :
  Forall (λ kv, names "type" kv.1 = false) kvs →
  Unmarshal_eventData (Json (JObj kvs)) = Some e → Type_ e = "".
Proof.
  intros Hk. simpl.
  pose proof (unmarshal_members_untyped kvs (mkEventData "" ANil) true Hk) as Hty.
  destruct (unmarshal_members kvs (mkEventData "" ANil) true) as [e' [|]]; [|done].
  intros [= <-]. exact Hty.
Qed.

(** C6, as stated, fails: the frame [{"data":1}] has no [type], and it is
    not discarded; it decodes with the empty type and the handler registered
    under the empty event name is started with its data. *)
Lemma missing_type_counterexample :
  Forall (λ kv : string * json, names "type" kv.1 = false) [("data", JNum "1")] ∧
  Router.body unnamed_handlers (Json (JObj [("data", JNum "1")]))
    = [Go quiet (AFloat "1")] ∧
  Flat.body unnamed_handlers (Json (JObj [("data", JNum "1")]))
    = [Go quiet (AFloat "1")].
Proof. split; [by repeat constructor|]. split; reflexivity. Qed.

(** C6 (amended): a frame that does not decode into the envelope (it is not
    JSON, or is JSON but not an object, or its [type] is not a string, or
    its [data] hold a number that no [float64] can hold) is dropped: nothing
    is started or logged and the loop goes on with the next read as if the
    frame had not come.  A frame that is an object without a [type] member
    is not dropped: it decodes with the empty type and its data go to the
    handlers registered under the empty event name, which starts nothing
    when that name has no handler.  In either case the frames that follow
    are handled as usual.  Both copies of [listen] agree on this. *)
Theorem malformed_frames (c : ClientWebSocketClient) (reads : list ReadResult) :
  Unmarshal_eventData NotJson = None ∧
  (∀ message, Unmarshal_eventData message = None →
     Router.body (eventHandlers c) message = [] ∧
     Flat.body (eventHandlers c) message = [] ∧
     listen_loop Router.body c (ReadOk message :: reads) = listen_loop Router.body c reads ∧
     listen_loop Flat.body c (ReadOk message :: reads) = listen_loop Flat.body c reads) ∧
  (∀ kvs e, Forall (λ kv, names "type" kv.1 = false) kvs →
     Unmarshal_eventData (Json (JObj kvs)) = Some e →
     Type_ e = "" ∧
     Router.body (eventHandlers c) (Json (JObj kvs))
       = map (λ h, Go h (Data e)) (handlers_of (eventHandlers c) "") ∧
     Flat.body (eventHandlers c) (Json (JObj kvs))
       = map (λ h, Go h (Data e)) (handlers_of (eventHandlers c) "") ∧
     (eventHandlers c !! "" = None →
        Router.body (eventHandlers c) (Json (JObj kvs)) = [] ∧
        Flat.body (eventHandlers c) (Json (JObj kvs)) = [])) ∧
  (∀ message,
     listen_loop Router.body c (ReadOk message :: reads) =
       ((Router.body (eventHandlers c) message
           ++ (listen_loop Router.body c reads).1)%list,
        (listen_loop Router.body c reads).2) ∧
     listen_loop Flat.body c (ReadOk message :: reads) =
       ((Flat.body (eventHandlers c) message
           ++ (listen_loop Flat.body c reads).1)%list,
        (listen_loop Flat.body c reads).2)).
Proof.
  split; [reflexivity|]. split; [|split].
  - intros message He.
    destruct (body_undecodable (eventHandlers c) message He) as [HR HF].
    rewrite !listen_loop_cons, HR, HF. simpl.
    repeat split; by destruct (listen_loop _ c reads).
  - intros kvs e Hk He.
    pose proof (Unmarshal_eventData_untyped kvs e Hk He) as Hty.
    split; [exact Hty|].
    assert (HR : Router.body (eventHandlers c) (Json (JObj kvs))
                 = map (λ h, Go h (Data e)) (handlers_of (eventHandlers c) "")).
    { unfold Router.body. rewrite He, Hty. reflexivity. }
    assert (HF : Flat.body (eventHandlers c) (Json (JObj kvs))
                 = map (λ h, Go h (Data e)) (handlers_of (eventHandlers c) "")).
    { unfold Flat.body. rewrite He, Hty. reflexivity. }
    split; [exact HR|]. split; [exact HF|].
    intros Hnone. rewrite HR, HF. unfold handlers_of. rewrite Hnone. done.
  - intros message. split; apply listen_loop_cons.
Qed.

Lemma malformed_frames_witness :
  Unmarshal_eventData (Json (JArr [])) = None ∧
  listen_loop Router.body greeting_client
    [ReadOk (Json (JArr [])); ReadOk (Json (JObj [("type", JStr "greeting")]))]
  = ([Go quiet ANil], false) ∧
  Forall (λ kv : string * json, names "type" kv.1 = false) [("data", JNum "1")] ∧
  Router.body (eventHandlers greeting_client) (Json (JObj [("data", JNum "1")])) = [].
Proof.
  pose proof (malformed_frames greeting_client
                [ReadOk (Json (JObj [("type", JStr "greeting")]))])
    as (_ & Hdrop & Huntyped & _).
  split; [reflexivity|]. split.
  - destruct (Hdrop (Json (JArr [])) eq_refl) as (_ & _ & -> & _). reflexivity.
  - assert (Hk : Forall (λ kv : string * json, names "type" kv.1 = false)
                   [("data", JNum "1")]) by (by repeat constructor).
    split; [exact Hk|].
    destruct (Huntyped [("data", JNum "1")] (mkEventData "" (AFloat "1")) Hk eq_refl)
      as (_ & _ & _ & Hnone).
    apply Hnone. reflexivity.
Defined.

(** ** The invariant the methods keep *)

Lemma New_connected_has_conn (k u : string) (a : bool) (i m : Z) :
  connected_has_conn (NewClientWebSocketClient k u a i m).
Proof. intros H. discriminate H. Qed.

Lemma Connect_connected_has_conn (net : Network) (c : ClientWebSocketClient) :
  connected_has_conn c → connected_has_conn (Connect net c).1.1.
Proof.
  unfold Connect, connected_has_conn. intros Hc.
  destruct (isConnected c) eqn:Hi; simpl; [by rewrite Hi|].
  destruct (Dial net (url c)); simpl; [eauto|by rewrite Hi].
Qed.

Lemma Disconnect_connected_has_conn (c : ClientWebSocketClient) :
  connected_has_conn c → connected_has_conn (Disconnect c).1.
Proof.
  unfold Disconnect, connected_has_conn. intros Hc.
  destruct (conn c) eqn:Hh; simpl; [discriminate|by rewrite Hh].
Qed.

Lemma On_connected_has_conn (event : string) (h : Handler) (c : ClientWebSocketClient) :
  connected_has_conn c → connected_has_conn (On event h c).
Proof. unfold connected_has_conn. simpl. auto. Qed.

Lemma SetAccessToken_connected_has_conn (t : string) (c : ClientWebSocketClient) :
  connected_has_conn c → connected_has_conn (SetAccessToken t c).
Proof. unfold connected_has_conn. simpl. auto. Qed.

Lemma listen_connected_has_conn
    (body : gmap string (list Handler) → frame → list Effect)
    (net : Network) (c : ClientWebSocketClient) (reads : list ReadResult) :
  connected_has_conn c → connected_has_conn (listen body net c reads).1.
Proof.
  intros Hc. unfold listen, listen_deferred.
  destruct (listen_loop body c reads) as [t [|]]; [|exact Hc].
  destruct (autoReconnect (set_isConnected false c)) eqn:Ha.
  - pose proof (Connect_connected_has_conn net (set_isConnected false c)) as HC.
    destruct (Connect net (set_isConnected false c)) as [[c2 err] t2].
    simpl in *. apply HC. intros H. discriminate H.
  - simpl. intros H. discriminate H.
Qed.

(** ** C7: [Send] *)



(** ** C8: a dial that fails *)

(** C8: when the client is not connected and the dial fails, [Connect]
    returns the dial's error; the client is left exactly as it was, so it
    stays disconnected and no connection is stored; the dial is the only
    thing done, no read loop is started. *)
Theorem Connect_dial_failure (net : Network) (c : ClientWebSocketClient) (cause : string) :
  isConnected c = false →
  Dial net (url c) = inr cause →
  Connect net c = (c, Some (ErrDial cause), [Dialed (url c)]) ∧
  isConnected (Connect net c).1.1 = false ∧
  conn (Connect net c).1.1 = conn c ∧
  GoListen ∉ (Connect net c).2.
Proof.
  intros Hi Hd. unfold Connect. rewrite Hi, Hd. simpl.
  repeat split; try done.
  intros Hin. apply list_elem_of_singleton in Hin. discriminate Hin.
Qed.

Lemma Connect_dial_failure_witness :
  isConnected offline_client = false ∧
  Dial lossy_network (url offline_client) = inr "refused" ∧
  Connect lossy_network offline_client
    = (offline_client, Some (ErrDial "refused"), [Dialed "ws://elsewhere/ws?token="]).
Proof.
  split; [reflexivity|]. split; [reflexivity|].
  apply (Connect_dial_failure lossy_network offline_client "refused"); reflexivity.
Defined.

(** ** C2: [Connect] on a connected client *)


Lemma Connect_connected (net : Network) (c : ClientWebSocketClient) :
  isConnected c = true → Connect net c = (c, None, []).
Proof. intros Hi. unfold Connect. by rewrite Hi. Qed.




(** Two calls on a new client: the first dials, the second does not. *)
Example Connect_twice :
  Connect_in_succession [lossy_network; lossy_network] fresh_client
    = (connected_client, [None; None], [Dialed "ws://host/ws?token=t"; GoListen]).
Proof. reflexivity. Qed.

(** ** C4: the maximum number of reconnect attempts *)

Lemma dialed_app (t1 t2 : list Effect) : dialed (t1 ++ t2)%list = (dialed t1 ++ dialed t2)%list.
Proof. apply omap_app. Qed.

Lemma slept_app (t1 t2 : list Effect) : slept (t1 ++ t2)%list = (slept t1 ++ slept t2)%list.
Proof. apply omap_app. Qed.

Lemma dispatch_quiet (handlers : gmap string (list Handler)) (event : string) (data : any) :
  dialed (dispatch handlers event data) = [] ∧ slept (dispatch handlers event data) = [].
Proof.
  unfold dispatch. induction (handlers_of handlers event) as [|h l [IH1 IH2]]; simpl; done.
Qed.

Lemma Flat_body_quiet : loop_body_quiet Flat.body.
Proof.
  intros handlers message. unfold Flat.body.
  destruct (Unmarshal_eventData message); [apply dispatch_quiet|done].
Qed.

Lemma Router_body_quiet : loop_body_quiet Router.body.
Proof.
  intros handlers message. unfold Router.body.
  destruct (Unmarshal_eventData message) as [e|]; [|done].
  destruct (String.eqb (Type_ e) "message").
  - destruct (Unmarshal_map message) as [m|]; [|done].
    rewrite dialed_app, slept_app.
    destruct (dispatch_quiet handlers "message.create" (AMap (Router.transform m)))
      as [-> ->].
    destruct (Router.transform m !! "conversationId") as [[]|]; simpl; try done.
    apply dispatch_quiet.
  - destruct (String.eqb (Type_ e) "event"); [apply dispatch_quiet|].
    destruct (String.eqb (Type_ e) "subscribed"); [done|].
    destruct (String.eqb (Type_ e) "pong"); [done|apply dispatch_quiet].
Qed.

Lemma listen_loop_quiet (body : gmap string (list Handler) → frame → list Effect)
    (c : ClientWebSocketClient) (reads : list ReadResult) :
  loop_body_quiet body →
  dialed (listen_loop body c reads).1 = [] ∧ slept (listen_loop body c reads).1 = [].
Proof.
  intros Hb. induction reads as [|[message|cause] reads [IH1 IH2]]; simpl; [done| |done].
  destruct (listen_loop body c reads) as [t r]. simpl in *.
  rewrite dialed_app, slept_app, IH1, IH2.
  destruct (Hb (eventHandlers c) message) as [-> ->]. done.
Qed.

(** After a drop with auto-reconnect on: one pause of the configured
    interval and one dial. *)
Lemma listen_reconnects_once (body : gmap string (list Handler) → frame → list Effect)
    (net : Network) (c : ClientWebSocketClient) (reads : list ReadResult) :
  loop_body_quiet body →
  (listen_loop body c reads).2 = true →
  autoReconnect c = true →
  dialed (listen body net c reads).2 = [url c] ∧
  slept (listen body net c reads).2 = [reconnectInterval c].
Proof.
  intros Hb Hret Ha. unfold listen, listen_deferred.
  destruct (listen_loop_quiet body c reads Hb) as [Hd Hs].
  destruct (listen_loop body c reads) as [t r]. simpl in *. subst r.
  rewrite Ha. unfold Connect. simpl.
  destruct (Dial net (url (set_isConnected false c))) eqn:HD; simpl;
    rewrite dialed_app, slept_app, Hd, Hs; done.
Qed.

Lemma listen_loop_max (body : gmap string (list Handler) → frame → list Effect)
    (n : Z) (c : ClientWebSocketClient) (reads : list ReadResult) :
  listen_loop body (set_maxReconnectAttempts n c) reads = listen_loop body c reads.
Proof. induction reads as [|[message|cause] reads IH]; simpl; [done| |done]. by rewrite IH. Qed.

Lemma Connect_max (n : Z) (net : Network) (c : ClientWebSocketClient) :
  Connect net (set_maxReconnectAttempts n c) =
    (set_maxReconnectAttempts n (Connect net c).1.1, (Connect net c).1.2, (Connect net c).2).
Proof.
  unfold Connect. simpl. destruct (isConnected c); [done|].
  change (url (set_maxReconnectAttempts n c)) with (url c).
  destruct (Dial net (url c)); done.
Qed.

Lemma listen_max (body : gmap string (list Handler) → frame → list Effect)
    (n : Z) (net : Network) (c : ClientWebSocketClient) (reads : list ReadResult) :
  listen body net (set_maxReconnectAttempts n c) reads =
    (set_maxReconnectAttempts n (listen body net c reads).1, (listen body net c reads).2).
Proof.
  unfold listen, listen_deferred. rewrite listen_loop_max.
  destruct (listen_loop body c reads) as [t [|]]; [|done].
  simpl. destruct (autoReconnect c); [|done].
  change (set_isConnected false (set_maxReconnectAttempts n c))
    with (set_maxReconnectAttempts n (set_isConnected false c)).
  rewrite Connect_max.
  destruct (Connect net (set_isConnected false c)) as [[c2 err] t2]. done.
Qed.

(** C4: the maximum is stored by the constructor and read by nothing.  For
    two clients that differ in [maxReconnectAttempts] only, every method and
    the read loop of either copy return the same results and effects and
    leave clients that again differ in that field only; and when the loop
    returns after a failed read with auto-reconnect on, it pauses once for
    the configured interval and dials once, whatever the maximum. *)
Theorem maxReconnectAttempts_never_consulted (n : Z) (net : Network)
    (c : ClientWebSocketClient) (data : any) (event token : string) (h : Handler)
    (reads : list ReadResult) :
  let c' := set_maxReconnectAttempts n c in
  (∀ k u a i, maxReconnectAttempts (NewClientWebSocketClient k u a i n) = n) ∧
  (∀ o, NewClient (mkOptions (ApiKey o) (ApiUrl o) (WsUrl o) (AutoReconnect o)
                     (ReconnectInterval o) n)
        = set_maxReconnectAttempts (if (n =? 0)%Z then 10 else n) <$> NewClient o) ∧
  Connect net c' =
    (set_maxReconnectAttempts n (Connect net c).1.1, (Connect net c).1.2, (Connect net c).2) ∧
  Disconnect c' = (set_maxReconnectAttempts n (Disconnect c).1, (Disconnect c).2) ∧
  Send net c' data = Send net c data ∧
  Subscribe net c' data = Subscribe net c data ∧
  On event h c' = set_maxReconnectAttempts n (On event h c) ∧
  SetAccessToken token c' = set_maxReconnectAttempts n (SetAccessToken token c) ∧
  IsConnectedStatus c' = IsConnectedStatus c ∧
  Emit event data c' = Emit event data c ∧
  Flat.listen net c' reads =
    (set_maxReconnectAttempts n (Flat.listen net c reads).1, (Flat.listen net c reads).2) ∧
  Router.listen net c' reads =
    (set_maxReconnectAttempts n (Router.listen net c reads).1,
     (Router.listen net c reads).2) ∧
  (autoReconnect c = true →
     ((listen_loop Flat.body c reads).2 = true →
        dialed (Flat.listen net c' reads).2 = [url c] ∧
        slept (Flat.listen net c' reads).2 = [reconnectInterval c]) ∧
     ((listen_loop Router.body c reads).2 = true →
        dialed (Router.listen net c' reads).2 = [url c] ∧
        slept (Router.listen net c' reads).2 = [reconnectInterval c])).
Proof.
  intros c'. subst c'.
  split; [done|].
  split; [intros o; unfold NewClient; simpl; by destruct (String.eqb (ApiKey o) "")|].
  split; [apply Connect_max|].
  split; [unfold Disconnect; simpl; by destruct (conn c)|].
  split; [done|]. split; [done|]. split; [done|]. split; [done|].
  split; [done|]. split; [done|].
  split; [apply listen_max|]. split; [apply listen_max|].
  intros Ha. split; intros Hret.
  - unfold Flat.listen. rewrite listen_max. simpl.
    by apply listen_reconnects_once; [apply Flat_body_quiet| |].
  - unfold Router.listen. rewrite listen_max. simpl.
    by apply listen_reconnects_once; [apply Router_body_quiet| |].
Qed.

(** A drop after one frame, with the maximum set to zero: one pause, one
    dial, and the loop is started again. *)
Example reconnect_ignores_maximum :
  Router.listen lossy_network (set_maxReconnectAttempts 0 connected_client)
    [ReadOk (Json (JObj [("type", JStr "pong")])); ReadFail "EOF"]
  = (set_maxReconnectAttempts 0 connected_client,
     [Logged "ws read error: EOF"; Slept 5; Dialed "ws://host/ws?token=t"; GoListen]).
Proof. reflexivity. Qed.

(** ** C9: registration and dispatch *)

Lemma handlers_of_On (event event' : string) (h : Handler) (c : ClientWebSocketClient) :
  handlers_of (eventHandlers (On event h c)) event' =
    if decide (event' = event)
    then (handlers_of (eventHandlers c) event ++ [h])%list
    else handlers_of (eventHandlers c) event'.
Proof.
  unfold On, handlers_of. simpl. case_decide; subst.
  - by rewrite lookup_insert_eq.
  - by rewrite lookup_insert_ne.
Qed.

Lemma handlers_of_On_On (event : string) (H1 H2 : Handler) (c : ClientWebSocketClient) :
  handlers_of (eventHandlers (On event H2 (On event H1 c))) event =
    (handlers_of (eventHandlers c) event ++ [H1; H2])%list.
Proof.
  rewrite !handlers_of_On. rewrite !decide_True by done. by rewrite <- app_assoc.
Qed.

Lemma dispatch_On_On (event : string) (H1 H2 : Handler) (c : ClientWebSocketClient)
    (data : any) :
  dispatch (eventHandlers (On event H2 (On event H1 c))) event data =
    (dispatch (eventHandlers c) event data ++ [Go H1 data; Go H2 data])%list.
Proof. unfold dispatch. rewrite handlers_of_On_On, map_app. done. Qed.

Lemma dispatch_On_other (event event' : string) (h : Handler) (c : ClientWebSocketClient)
    (data : any) :
  event' ≠ event →
  dispatch (eventHandlers (On event h c)) event' data = dispatch (eventHandlers c) event' data.
Proof. intros Hne. unfold dispatch. rewrite handlers_of_On. by rewrite decide_False. Qed.

(** C9: [On] appends the handler to the list of its event (the empty list
    when the event has none yet) and touches no other list: nothing is
    dropped and a handler already there is added again.  After [H1] and then
    [H2] are registered for an event, one dispatch to that event, by [Emit]
    or by the read loop of either copy on a frame routed to that event,
    starts the handlers that were there before, then [H1], then [H2], each
    once and with the dispatched value. *)
Theorem handlers_start_in_registration_order (event : string) (H1 H2 : Handler)
    (c : ClientWebSocketClient) (data : any) :
  let c' := On event H2 (On event H1 c) in
  (∀ h, handlers_of (eventHandlers (On event h c)) event
          = (handlers_of (eventHandlers c) event ++ [h])%list) ∧
  (∀ h, eventHandlers c !! event = None →
        eventHandlers (On event h c) !! event = Some [h]) ∧
  (∀ h other, other ≠ event →
        eventHandlers (On event h c) !! other = eventHandlers c !! other) ∧
  Emit event data c' = (Emit event data c ++ [Go H1 data; Go H2 data])%list ∧
  (∀ k u a i m,
     Emit event data (On event H2 (On event H1 (NewClientWebSocketClient k u a i m)))
       = [Go H1 data; Go H2 data]) ∧
  (∀ message, Unmarshal_eventData message = Some (mkEventData event data) →
     Flat.body (eventHandlers c') message
       = (Flat.body (eventHandlers c) message ++ [Go H1 data; Go H2 data])%list) ∧
  (∀ message, Unmarshal_eventData message = Some (mkEventData event data) →
     event ≠ "message" → event ≠ "subscribed" → event ≠ "pong" →
     Router.body (eventHandlers c') message
       = (Router.body (eventHandlers c) message ++ [Go H1 data; Go H2 data])%list) ∧
  (∀ message e msgData,
     Unmarshal_eventData message = Some e → Type_ e = "message" →
     Unmarshal_map message = Some msgData →
     let t := AMap (Router.transform msgData) in
     (event = "message.create" →
        Router.body (eventHandlers c') message
          = (dispatch (eventHandlers c) "message.create" t ++ [Go H1 t; Go H2 t] ++
             match Router.transform msgData !! "conversationId" with
             | Some (AStr convID) => dispatch (eventHandlers c) (Router.eventKey convID) t
             | _ => []
             end)%list) ∧
     (∀ convID, Router.transform msgData !! "conversationId" = Some (AStr convID) →
        event = Router.eventKey convID →
        Router.body (eventHandlers c') message
          = (Router.body (eventHandlers c) message ++ [Go H1 t; Go H2 t])%list)).
Proof.
  intros c'. subst c'.
  split; [intros h; rewrite handlers_of_On; by rewrite decide_True|].
  split.
  { intros h Hnone. unfold On, handlers_of. simpl.
    by rewrite lookup_insert_eq, Hnone. }
  split.
  { intros h other Hne. unfold On. simpl. by rewrite lookup_insert_ne. }
  split; [apply dispatch_On_On|].
  split.
  { intros k u a i m. unfold Emit. rewrite dispatch_On_On. reflexivity. }
  split.
  { intros message He. unfold Flat.body. rewrite He. simpl. apply dispatch_On_On. }
  split.
  { intros message He Hm Hs Hp. unfold Router.body. rewrite He. simpl.
    apply String.eqb_neq in Hm, Hs, Hp. rewrite Hm, Hs, Hp.
    destruct (String.eqb event "event"); apply dispatch_On_On. }
  intros message e msgData He Hty Hmap t.
  rewrite !(body_message _ message e msgData He Hty Hmap). fold t.
  split.
  - intros ->. rewrite dispatch_On_On, <- app_assoc. do 2 f_equal.
    destruct (Router.transform msgData !! "conversationId") as [[]|]; try done.
    rewrite !dispatch_On_other; [done|discriminate..].
  - intros convID Hconv ->. rewrite Hconv, dispatch_On_On, app_assoc. f_equal.
    rewrite !dispatch_On_other; [done|discriminate..].
Qed.

Lemma handlers_start_in_registration_order_witness :
  Unmarshal_eventData (Json (JObj [("type", JStr "greeting"); ("data", JBool true)]))
    = Some (mkEventData "greeting" (ABool true)) ∧
  Router.body (eventHandlers (On "greeting" faulty (On "greeting" stuck greeting_client)))
    (Json (JObj [("type", JStr "greeting"); ("data", JBool true)]))
  = [Go quiet (ABool true); Go stuck (ABool true); Go faulty (ABool true)].
Proof.
  split; [reflexivity|].
  destruct (handlers_start_in_registration_order "greeting" stuck faulty
              greeting_client (ABool true)) as (_ & _ & _ & _ & _ & _ & HR & _).
  rewrite (HR (Json (JObj [("type", JStr "greeting"); ("data", JBool true)])) eq_refl);
    [reflexivity|discriminate..].
Defined.

Lemma maxReconnectAttempts_never_consulted_witness :
  Router.listen lossy_network (set_maxReconnectAttempts 0 connected_client)
    [ReadFail "EOF"]
  = (set_maxReconnectAttempts 0
       (Router.listen lossy_network connected_client [ReadFail "EOF"]).1,
     (Router.listen lossy_network connected_client [ReadFail "EOF"]).2) ∧
  dialed (Router.listen lossy_network (set_maxReconnectAttempts 0 connected_client)
            [ReadFail "EOF"]).2 = ["ws://host/ws?token=t"] ∧
  slept (Router.listen lossy_network (set_maxReconnectAttempts 0 connected_client)
           [ReadFail "EOF"]).2 = [5%Z].
Proof.
  destruct (maxReconnectAttempts_never_consulted 0 lossy_network connected_client
              ANil "" "" quiet [ReadFail "EOF"])
    as (_ & _ & _ & _ & _ & _ & _ & _ & _ & _ & _ & HR & Hone).
  split; [exact HR|].
  destruct (Hone eq_refl) as [_ Hrouter]. exact (Hrouter eq_refl).
Defined.

(** ** C3: handlers that fail *)

Lemma dispatch_relabel (f : Handler → Handler) (handlers : gmap string (list Handler))
    (event : string) (data : any) :
  dispatch (map f <$> handlers) event data = map (relabel f) (dispatch handlers event data).
Proof.
  unfold dispatch, handlers_of. rewrite lookup_fmap.
  destruct (handlers !! event) as [l|]; simpl; [|done].
  rewrite !map_map. done.
Qed.

(** The loop body treats the handlers as opaque values: with other handlers
    in the table it starts the same calls, of those handlers.  It never
    runs one. *)
Lemma Flat_body_relabel (f : Handler → Handler) (handlers : gmap string (list Handler))
    (message : frame) :
  Flat.body (map f <$> handlers) message = map (relabel f) (Flat.body handlers message).
Proof.
  unfold Flat.body. destruct (Unmarshal_eventData message); [apply dispatch_relabel|done].
Qed.

Lemma Router_body_relabel (f : Handler → Handler) (handlers : gmap string (list Handler))
    (message : frame) :
  Router.body (map f <$> handlers) message = map (relabel f) (Router.body handlers message).
Proof.
  unfold Router.body. destruct (Unmarshal_eventData message) as [e|]; [|done].
  destruct (String.eqb (Type_ e) "message").
  - destruct (Unmarshal_map message) as [m|]; [|done].
    rewrite map_app, dispatch_relabel. f_equal.
    destruct (Router.transform m !! "conversationId") as [[]|]; try done.
    apply dispatch_relabel.
  - destruct (String.eqb (Type_ e) "event"); [apply dispatch_relabel|].
    destruct (String.eqb (Type_ e) "subscribed"); [done|].
    destruct (String.eqb (Type_ e) "pong"); [done|apply dispatch_relabel].
Qed.

(** C3, as stated, fails: a handler registered under ["boom"] that panics
    is started by the frame [{"type":"boom"}]; when its goroutine runs, the
    panic is recovered by nobody and the process ends: the read loop takes
    no further frame.  Both copies of [listen] behave so. *)
Lemma panicking_handler_counterexample :
  deliver Router.body boom_frame (mkProcess fragile_client [] true)
    = Some (mkProcess fragile_client [(faulty, ANil)] true) ∧
  deliver Flat.body boom_frame (mkProcess fragile_client [] true)
    = Some (mkProcess fragile_client [(faulty, ANil)] true) ∧
  faulty ANil = Panics ∧
  run 0 (mkProcess fragile_client [(faulty, ANil)] true)
    = Some (mkProcess fragile_client [] false) ∧
  deliver Router.body boom_frame (mkProcess fragile_client [] false) = None ∧
  deliver Flat.body boom_frame (mkProcess fragile_client [] false) = None.
Proof. repeat split; reflexivity. Qed.

(** C3 (amended): the router starts each handler in a goroutine of its own
    and neither runs it nor waits for it: what the loop body does with a
    frame does not depend on what the handlers do, and a live process takes
    the next frame whatever calls are still pending or blocked.  A call that
    returns or blocks leaves the client and the read loop as they are, and
    nothing of a handler's end is reported to the loop.  A panic in a
    handler is not recovered: it ends the process, and the read loop with
    it. *)
Theorem handler_failures (body : gmap string (list Handler) → frame → list Effect)
    (p : Process) (message : frame) (i : nat) (f : Handler → Handler) :
  Flat.body (map f <$> eventHandlers (client p)) message
    = map (relabel f) (Flat.body (eventHandlers (client p)) message) ∧
  Router.body (map f <$> eventHandlers (client p)) message
    = map (relabel f) (Router.body (eventHandlers (client p)) message) ∧
  (alive p = true →
     deliver body message p =
       Some (mkProcess (client p)
               (goroutines p ++ spawned (body (eventHandlers (client p)) message))%list
               true)) ∧
  (∀ h v, alive p = true → goroutines p !! i = Some (h, v) →
     ∃ p', run i p = Some p' ∧ client p' = client p ∧
           (h v = Returns → alive p' = true ∧ goroutines p' = delete i (goroutines p)) ∧
           (h v = Blocks → p' = p) ∧
           (h v = Panics →
              alive p' = false ∧
              (∀ m, deliver body m p' = None) ∧ (∀ j, run j p' = None))).
Proof.
  split; [apply Flat_body_relabel|]. split; [apply Router_body_relabel|].
  split.
  - intros Ha. unfold deliver. by rewrite Ha.
  - intros h v Ha Hg. unfold run. rewrite Ha, Hg.
    destruct (h v) eqn:Hhv; eexists; (split; [reflexivity|]); simpl;
      repeat split; try done; try discriminate.
Qed.

Lemma handler_failures_witness :
  run 0 (mkProcess greeting_client [(stuck, ANil); (quiet, ANil)] true)
    = Some (mkProcess greeting_client [(stuck, ANil); (quiet, ANil)] true) ∧
  deliver Router.body (Json (JObj [("type", JStr "greeting")]))
    (mkProcess greeting_client [(stuck, ANil); (quiet, ANil)] true)
    = Some (mkProcess greeting_client [(stuck, ANil); (quiet, ANil); (quiet, ANil)] true).
Proof.
  destruct (handler_failures Router.body
              (mkProcess greeting_client [(stuck, ANil); (quiet, ANil)] true)
              (Json (JObj [("type", JStr "greeting")])) 0 id)
    as (_ & _ & Hdeliver & Hrun).
  split.
  - destruct (Hrun stuck ANil eq_refl eq_refl) as (p' & -> & _ & _ & Hb & _).
    by rewrite (Hb eq_refl).
  - exact (Hdeliver eq_refl).
Defined.

(** ** Further properties of the WebSocket client *)

(** X1: [Disconnect] on a client that never held a connection does nothing.
    On a client that holds one it closes that connection and marks the
    client disconnected, keeping the handle; called again it closes the same
    handle again and leaves the same state.  After [Disconnect], [Send] and
    [Subscribe] return the not-connected error and write nothing. *)
Theorem Disconnect_closes_the_held_connection (net : Network)
    (c : ClientWebSocketClient) (data : any) :
  (conn c = None → Disconnect c = (c, [])) ∧
  (∀ h, conn c = Some h →
     Disconnect c = (set_isConnected false c, [Closed h]) ∧
     Disconnect (Disconnect c).1 = ((Disconnect c).1, [Closed h])) ∧
  conn (Disconnect c).1 = conn c ∧
  (connected_has_conn c →
     isConnected (Disconnect c).1 = false ∧
     Send net (Disconnect c).1 data = (Return (Some ErrNotConnected), []) ∧
     Subscribe net (Disconnect c).1 data = (Return (Some ErrNotConnected), [])).
Proof.
  unfold Disconnect, Subscribe, Send, connected_has_conn.
  split; [by intros ->|]. split.
  { intros h Hh. rewrite Hh. simpl. by rewrite Hh. }
  destruct (conn c) as [h|] eqn:Hh; simpl; [done|].
  split; [done|]. intros Hc.
  destruct (isConnected c) eqn:Hi; [|done].
  destruct (Hc eq_refl) as [h Hsome]. discriminate Hsome.
Qed.

Lemma Disconnect_closes_the_held_connection_witness :
  Disconnect connected_client = (set_isConnected false connected_client, [Closed 7%nat]) ∧
  Disconnect (Disconnect connected_client).1
    = (set_isConnected false connected_client, [Closed 7%nat]) ∧
  Send lossy_network (Disconnect connected_client).1 (AStr "late")
    = (Return (Some ErrNotConnected), []).
Proof.
  destruct (Disconnect_closes_the_held_connection lossy_network connected_client
              (AStr "late")) as (_ & Hheld & _ & Hafter).
  destruct (Hheld 7%nat eq_refl) as [H1 H2].
  split; [exact H1|]. split; [exact H2|].
  apply Hafter. intros _. eexists. reflexivity.
Defined.

(** X2: [Subscribe] on a connected client makes one write, of a map with
    exactly the two keys [type], holding ["subscribe"], and [data], holding
    the subscription as given, and returns what the write returns; on a
    client that is not connected it returns the not-connected error and
    writes nothing. *)
Theorem Subscribe_wraps_the_subscription (net : Network) (c : ClientWebSocketClient)
    (subscription : any) :
  connected_has_conn c →
  (isConnected c = false →
     Subscribe net c subscription = (Return (Some ErrNotConnected), [])) ∧
  (isConnected c = true →
     ∃ h m,
       conn c = Some h ∧
       Subscribe net c subscription
         = (Return (ErrWrite <$> WriteJSON net h (AMap m)), [Wrote h (AMap m)]) ∧
       m !! "type" = Some (AStr "subscribe") ∧
       m !! "data" = Some subscription ∧
       (∀ k, k ≠ "type" → k ≠ "data" → m !! k = None)).
Proof.
  intros Hc. unfold Subscribe, Send. split; [by intros ->|].
  intros Hi. destruct (Hc Hi) as [h Hh]. rewrite Hi, Hh. simpl.
  eexists h, _. split; [done|]. split; [reflexivity|].
  split; [by rewrite lookup_insert_eq|].
  split; [by rewrite lookup_insert_ne, lookup_insert_eq|].
  intros k Ht Hd. by rewrite !lookup_insert_ne, lookup_empty.
Qed.

Lemma Subscribe_wraps_the_subscription_witness :
  connected_has_conn connected_client ∧ isConnected connected_client = true ∧
  ∃ h m,
    conn connected_client = Some h ∧
    Subscribe lossy_network connected_client (AStr "users")
      = (Return (ErrWrite <$> WriteJSON lossy_network h (AMap m)), [Wrote h (AMap m)]) ∧
    m !! "type" = Some (AStr "subscribe") ∧
    m !! "data" = Some (AStr "users") ∧
    (∀ k, k ≠ "type" → k ≠ "data" → m !! k = None).
Proof.
  assert (Hc : connected_has_conn connected_client) by (intros _; eexists; reflexivity).
  split; [exact Hc|]. split; [reflexivity|].
  exact (proj2 (Subscribe_wraps_the_subscription lossy_network connected_client
                  (AStr "users") Hc) eq_refl).
Defined.

(** X3: [SetAccessToken] changes the token and nothing else.  The token is
    read when a connection is dialed: on a client that is not connected the
    next [Connect] dials [<wsUrl>/ws?token=<token>], with the token as it
    is; on a connected client [Connect] still does nothing, so the open
    connection stays the one dialed with the earlier token. *)
Theorem token_is_read_at_dial (net : Network) (token : string)
    (c : ClientWebSocketClient) :
  set_accessToken (accessToken c) (SetAccessToken token c) = c ∧
  accessToken (SetAccessToken token c) = token ∧
  (isConnected c = false →
     dialed (Connect net (SetAccessToken token c)).2
       = [wsUrl c ++ "/ws?token=" ++ token]) ∧
  (isConnected c = true →
     Connect net (SetAccessToken token c) = (SetAccessToken token c, None, []) ∧
     conn (SetAccessToken token c) = conn c).
Proof.
  split; [by destruct c|]. split; [done|]. split.
  - intros Hi. unfold Connect. simpl. rewrite Hi.
    unfold url. simpl. by destruct (Dial net _).
  - intros Hi. split; [|done]. by apply Connect_connected.
Qed.

Lemma token_is_read_at_dial_witness :
  isConnected offline_client = false ∧
  dialed (Connect lossy_network (SetAccessToken "a b&c" offline_client)).2
    = ["ws://elsewhere/ws?token=a b&c"] ∧
  isConnected connected_client = true ∧
  Connect lossy_network (SetAccessToken "new" connected_client)
    = (SetAccessToken "new" connected_client, None, []).
Proof.
  destruct (token_is_read_at_dial lossy_network "a b&c" offline_client)
    as (_ & _ & Hoff & _).
  destruct (token_is_read_at_dial lossy_network "new" connected_client)
    as (_ & _ & _ & Hon).
  split; [reflexivity|]. split; [exact (Hoff eq_refl)|].
  split; [reflexivity|]. exact (proj1 (Hon eq_refl)).
Defined.

(** X4: dispatching to an event with no registered handler starts nothing:
    [Emit] does nothing, the loop body of [src/websocket_client.go] does
    nothing for a frame of that type, and the loop body of the second copy
    starts no handler for it. *)
Theorem unregistered_event_starts_nothing (c : ClientWebSocketClient)
    (event : string) (data : any) (message : frame) :
  eventHandlers c !! event = None →
  Emit event data c = [] ∧
  (Unmarshal_eventData message = Some (mkEventData event data) →
     Flat.body (eventHandlers c) message = [] ∧
     (event ≠ "message" → spawned (Router.body (eventHandlers c) message) = [])).
Proof.
  intros Hnone.
  assert (Hd : ∀ v, dispatch (eventHandlers c) event v = []).
  { intros v. unfold dispatch, handlers_of. by rewrite Hnone. }
  split; [apply Hd|]. intros He. unfold Flat.body, Router.body. rewrite He. simpl.
  split; [apply Hd|]. intros Hm. apply String.eqb_neq in Hm. rewrite Hm.
  destruct (String.eqb event "event"); [by rewrite Hd|].
  destruct (String.eqb event "subscribed"); [done|].
  destruct (String.eqb event "pong"); [done|by rewrite Hd].
Qed.

Lemma unregistered_event_starts_nothing_witness :
  eventHandlers greeting_client !! "farewell" = None ∧
  Emit "farewell" ANil greeting_client = [] ∧
  Router.body (eventHandlers greeting_client) (Json (JObj [("type", JStr "farewell")]))
    = [].
Proof.
  destruct (unregistered_event_starts_nothing greeting_client "farewell" ANil
              (Json (JObj [("type", JStr "farewell")])) eq_refl) as [He Hf].
  split; [reflexivity|]. split; [exact He|]. reflexivity.
Defined.

(** X5: the two copies of [listen] treat a frame alike unless it decodes
    with the type ["message"], ["subscribed"] or ["pong"]: for every other
    frame, the ones that do not decode included, the loop bodies start the
    same handlers with the same value, the [data] of the frame. *)
Theorem copies_agree_on_other_types (handlers : gmap string (list Handler))
    (message : frame) :
  (∀ e, Unmarshal_eventData message = Some e →
        Type_ e ≠ "message" ∧ Type_ e ≠ "subscribed" ∧ Type_ e ≠ "pong") →
  Router.body handlers message = Flat.body handlers message.
Proof.
  intros Hty. unfold Router.body, Flat.body.
  destruct (Unmarshal_eventData message) as [e|]; [|done].
  destruct (Hty e eq_refl) as (Hm & Hs & Hp).
  apply String.eqb_neq in Hm, Hs, Hp. rewrite Hm, Hs, Hp.
  by destruct (String.eqb (Type_ e) "event").
Qed.

Lemma copies_agree_on_other_types_witness :
  Router.body chat_handlers (Json (JObj [("type", JStr "event"); ("data", JNum "1")]))
  = Flat.body chat_handlers (Json (JObj [("type", JStr "event"); ("data", JNum "1")])).
Proof.
  apply copies_agree_on_other_types. intros e [= <-]. repeat split; discriminate.
Defined.

(** X6: the read loop handles the frames in the order they are read and
    stops at the first read that fails: it logs that error and returns, and
    nothing read after it is handled.  While every read succeeds the loop
    does not return. *)
Theorem listen_loop_in_order (body : gmap string (list Handler) → frame → list Effect)
    (c : ClientWebSocketClient) (messages : list frame) (cause : string)
    (later : list ReadResult) :
  listen_loop body c (map ReadOk messages ++ ReadFail cause :: later)%list
    = ((List.concat (map (body (eventHandlers c)) messages)
          ++ [Logged ("ws read error: " ++ cause)])%list, true) ∧
  listen_loop body c (map ReadOk messages)
    = (List.concat (map (body (eventHandlers c)) messages), false).
Proof.
  split; induction messages as [|m ms IH]; simpl; try done.
  - rewrite IH. by rewrite <- app_assoc.
  - by rewrite IH.
Qed.

Lemma listen_loop_in_order_witness :
  listen_loop Router.body greeting_client
    [ReadOk (Json (JObj [("type", JStr "greeting"); ("data", JNum "1")]));
     ReadOk (Json (JObj [("type", JStr "greeting"); ("data", JNum "2")]));
     ReadFail "EOF";
     ReadOk (Json (JObj [("type", JStr "greeting"); ("data", JNum "3")]))]
  = ([Go quiet (AFloat "1"); Go quiet (AFloat "2"); Logged "ws read error: EOF"], true).
Proof.
  exact (proj1 (listen_loop_in_order Router.body greeting_client
                  [Json (JObj [("type", JStr "greeting"); ("data", JNum "1")]);
                   Json (JObj [("type", JStr "greeting"); ("data", JNum "2")])]
                  "EOF"
                  [ReadOk (Json (JObj [("type", JStr "greeting"); ("data", JNum "3")]))])).
Defined.

(** X7: how a read loop leaves the client.  While its reads succeed it does
    not touch the client.  When a read fails it marks the client
    disconnected, keeping the handle.  Without auto-reconnect that is all.
    With auto-reconnect it sleeps for the interval and dials once: if the
    dial succeeds the client is connected on the new handle and a new read
    loop is started; if the dial fails the error is dropped, the client stays
    disconnected and no read loop is started, so nothing is left that would
    dial again. *)
Theorem listen_leaves_the_client (body : gmap string (list Handler) → frame → list Effect)
    (net : Network) (c : ClientWebSocketClient) (reads : list ReadResult) :
  ((listen_loop body c reads).2 = false →
     listen body net c reads = (c, (listen_loop body c reads).1)) ∧
  ((listen_loop body c reads).2 = true →
     (autoReconnect c = false →
        listen body net c reads
          = (set_isConnected false c, (listen_loop body c reads).1)) ∧
     (autoReconnect c = true →
        (∀ h, Dial net (url c) = inl h →
           listen body net c reads
             = (set_conn h c,
                ((listen_loop body c reads).1
                   ++ [Slept (reconnectInterval c); Dialed (url c); GoListen])%list)) ∧
        (∀ cause, Dial net (url c) = inr cause →
           listen body net c reads
             = (set_isConnected false c,
                ((listen_loop body c reads).1
                   ++ [Slept (reconnectInterval c); Dialed (url c)])%list)))).
Proof.
  unfold listen, listen_deferred, Connect.
  destruct (listen_loop body c reads) as [t r]. simpl.
  split; [by intros ->|]. intros ->. split.
  - intros ->. by rewrite app_nil_r.
  - intros ->. change (url (set_isConnected false c)) with (url c).
    split; [intros h -> | intros cause ->]; reflexivity.
Qed.

Lemma listen_leaves_the_client_witness :
  Router.listen lossy_network offline_client [ReadFail "reset"]
  = (offline_client,
     [Logged "ws read error: reset"; Slept 5; Dialed "ws://elsewhere/ws?token="]).
Proof.
  destruct (listen_leaves_the_client Router.body lossy_network offline_client
              [ReadFail "reset"]) as [_ H].
  destruct (H eq_refl) as [_ Hauto]. destruct (Hauto eq_refl) as [_ Hfail].
  exact (Hfail "refused" eq_refl).
Defined.

(** X8: with auto-reconnect on, [Disconnect] does not keep the client
    disconnected: the read of the loop fails on the closed connection, and
    the loop sleeps, dials again and, when the dial succeeds, leaves the
    client connected on a new handle. *)
Theorem Disconnect_is_undone_by_the_loop
    (body : gmap string (list Handler) → frame → list Effect)
    (net : Network) (c : ClientWebSocketClient) (h h' : Conn) (cause : string) :
  conn c = Some h →
  autoReconnect c = true →
  Dial net (url c) = inl h' →
  (Disconnect c).2 = [Closed h] ∧
  isConnected (Disconnect c).1 = false ∧
  listen body net (Disconnect c).1 [ReadFail cause]
    = (set_conn h' c,
       [Logged ("ws read error: " ++ cause); Slept (reconnectInterval c);
        Dialed (url c); GoListen]) ∧
  isConnected (listen body net (Disconnect c).1 [ReadFail cause]).1 = true.
Proof.
  intros Hh Ha Hd. unfold Disconnect. rewrite Hh. simpl.
  split; [done|]. split; [done|].
  unfold listen, listen_deferred, Connect. simpl. rewrite Ha. simpl.
  change (url (set_isConnected false (set_isConnected false c))) with (url c).
  rewrite Hd. simpl. done.
Qed.

Lemma Disconnect_is_undone_by_the_loop_witness :
  conn connected_client = Some 7%nat ∧
  autoReconnect connected_client = true ∧
  Dial lossy_network (url connected_client) = inl 7%nat ∧
  isConnected
    (Flat.listen lossy_network (Disconnect connected_client).1 [ReadFail "closed"]).1
  = true.
Proof.
  split; [reflexivity|]. split; [reflexivity|]. split; [reflexivity|].
  exact (proj2 (proj2 (proj2
    (Disconnect_is_undone_by_the_loop Flat.body lossy_network connected_client
       7%nat 7%nat "closed" eq_refl eq_refl eq_refl)))).
Defined.

(** ** What no sequence of calls does *)

Lemma listen_fields (body : gmap string (list Handler) → frame → list Effect)
    (net : Network) (c : ClientWebSocketClient) (reads : list ReadResult) :
  let c' := (listen body net c reads).1 in
  eventHandlers c' = eventHandlers c ∧ accessToken c' = accessToken c ∧
  apiKey c' = apiKey c ∧ wsUrl c' = wsUrl c ∧ autoReconnect c' = autoReconnect c ∧
  reconnectInterval c' = reconnectInterval c ∧
  maxReconnectAttempts c' = maxReconnectAttempts c.
Proof.
  unfold listen, listen_deferred, Connect.
  destruct (listen_loop body c reads) as [t [|]]; simpl; [|done].
  destruct (autoReconnect c) eqn:Ha; simpl; [|repeat split; done].
  destruct (Dial net _); simpl; repeat split; done.
Qed.

Lemma Connect_fields (net : Network) (c : ClientWebSocketClient) :
  let c' := (Connect net c).1.1 in
  eventHandlers c' = eventHandlers c ∧ accessToken c' = accessToken c ∧
  apiKey c' = apiKey c ∧ wsUrl c' = wsUrl c ∧ autoReconnect c' = autoReconnect c ∧
  reconnectInterval c' = reconnectInterval c ∧
  maxReconnectAttempts c' = maxReconnectAttempts c.
Proof.
  unfold Connect. destruct (isConnected c); simpl; [done|].
  destruct (Dial net _); simpl; repeat split; reflexivity.
Qed.

Lemma call_handlers_grow (k : Call) (c : ClientWebSocketClient) (event : string) :
  handlers_of (eventHandlers c) event
    `prefix_of` handlers_of (eventHandlers (call k c).1) event.
Proof.
  destruct k; try (simpl; reflexivity); cbn [call fst].
  - by rewrite (proj1 (Connect_fields net c)).
  - unfold Disconnect. by destruct (conn c).
  - rewrite handlers_of_On. case_decide; subst; [|done]. by apply prefix_app_r.
  - unfold Flat.listen. by rewrite (proj1 (listen_fields Flat.body net c reads)).
  - unfold Router.listen. by rewrite (proj1 (listen_fields Router.body net c reads)).
Qed.

Lemma call_connected_has_conn (k : Call) (c : ClientWebSocketClient) :
  connected_has_conn c → connected_has_conn (call k c).1.
Proof.
  destruct k; simpl; try done.
  - apply Connect_connected_has_conn.
  - apply Disconnect_connected_has_conn.
  - apply listen_connected_has_conn.
  - apply listen_connected_has_conn.
Qed.

Lemma call_configuration (k : Call) (c : ClientWebSocketClient) :
  let c' := (call k c).1 in
  apiKey c' = apiKey c ∧ wsUrl c' = wsUrl c ∧ autoReconnect c' = autoReconnect c ∧
  reconnectInterval c' = reconnectInterval c ∧
  maxReconnectAttempts c' = maxReconnectAttempts c ∧
  ((∀ token, k ≠ CallSetAccessToken token) → accessToken c' = accessToken c).
Proof.
  destruct k; simpl; try done.
  - destruct (Connect_fields net c) as (_ & ? & ? & ? & ? & ? & ?). done.
  - unfold Disconnect. by destruct (conn c).
  - repeat split; try done. intros H. by destruct (H token).
  - destruct (listen_fields Flat.body net c reads) as (_ & ? & ? & ? & ? & ? & ?). done.
  - destruct (listen_fields Router.body net c reads) as (_ & ? & ? & ? & ? & ? & ?). done.
Qed.

Lemma calls_cons (k : Call) (ks : list Call) (c : ClientWebSocketClient) :
  (calls (k :: ks) c).1 = (calls ks (call k c).1).1.
Proof. simpl. destruct (call k c) as [c1 t1]. simpl. by destruct (calls ks c1). Qed.

(** X9: handlers are never removed or reordered: after any sequence of
    calls ([Connect], [Disconnect], [Send], [Subscribe], [On],
    [SetAccessToken], [Emit], read loops of either copy), the handlers an
    event had before are still the first handlers of that event, in the same
    order. *)
Theorem handlers_only_grow (ks : list Call) (c : ClientWebSocketClient) (event : string) :
  handlers_of (eventHandlers c) event
    `prefix_of` handlers_of (eventHandlers (calls ks c).1) event.
Proof.
  revert c. induction ks as [|k ks IH]; intros c; [done|].
  rewrite calls_cons. etrans; [apply (call_handlers_grow k)|apply IH].
Qed.

Lemma handlers_only_grow_witness :
  [quiet] `prefix_of`
    handlers_of
      (eventHandlers
         (calls [CallConnect lossy_network; CallOn "greeting" stuck; CallDisconnect;
                 CallListenRouter lossy_network [ReadFail "closed"]]
            greeting_client).1) "greeting".
Proof.
  exact (handlers_only_grow
           [CallConnect lossy_network; CallOn "greeting" stuck; CallDisconnect;
            CallListenRouter lossy_network [ReadFail "closed"]]
           greeting_client "greeting").
Defined.

(** X10: in every state that a sequence of calls reaches from a new client,
    a client that says it is connected holds a connection; so [Send] and
    [Subscribe] never dereference a nil connection there. *)
Theorem Send_never_dereferences_nil (ks : list Call) (k u : string) (a : bool)
    (i m : Z) (net : Network) (data : any) :
  let c := (calls ks (NewClientWebSocketClient k u a i m)).1 in
  connected_has_conn c ∧
  (Send net c data).1 ≠ NilDereference ∧
  (Subscribe net c data).1 ≠ NilDereference.
Proof.
  intros c.
  assert (Hc : connected_has_conn c).
  { subst c. generalize (New_connected_has_conn k u a i m).
    generalize (NewClientWebSocketClient k u a i m).
    induction ks as [|k0 ks IH]; intros c0 H0; [done|].
    rewrite calls_cons. apply IH. by apply call_connected_has_conn. }
  split; [exact Hc|]. unfold Subscribe, Send.
  destruct (isConnected c) eqn:Hi; simpl; [|done].
  destruct (Hc Hi) as [h ->]. done.
Qed.

Lemma Send_never_dereferences_nil_witness :
  (Send lossy_network
     (calls [CallListenFlat lossy_network [ReadFail "early"]; CallDisconnect]
        (NewClientWebSocketClient "key" "ws://host" true 5 10)).1
     ANil).1 ≠ NilDereference.
Proof.
  exact (proj1 (proj2
    (Send_never_dereferences_nil
       [CallListenFlat lossy_network [ReadFail "early"]; CallDisconnect]
       "key" "ws://host" true 5 10 lossy_network ANil))).
Defined.

(** X11: no call changes the configuration the client was built with: the
    API key, the URL, the auto-reconnect flag, the interval and the maximum
    stay as they are through any sequence of calls, and the access token
    changes through [SetAccessToken] only. *)
Theorem configuration_is_fixed (ks : list Call) (c : ClientWebSocketClient) :
  let c' := (calls ks c).1 in
  apiKey c' = apiKey c ∧ wsUrl c' = wsUrl c ∧ autoReconnect c' = autoReconnect c ∧
  reconnectInterval c' = reconnectInterval c ∧
  maxReconnectAttempts c' = maxReconnectAttempts c ∧
  (Forall (λ k, ∀ token, k ≠ CallSetAccessToken token) ks →
     accessToken c' = accessToken c ∧ url c' = url c).
Proof.
  revert c. induction ks as [|k ks IH]; intros c; simpl.
  { repeat split; done. }
  destruct (call_configuration k c) as (H1 & H2 & H3 & H4 & H5 & H6).
  pose proof (calls_cons k ks c) as Hcons. simpl in Hcons. rewrite Hcons.
  destruct (IH (call k c).1) as (I1 & I2 & I3 & I4 & I5 & I6).
  rewrite I1, I2, I3, I4, I5.
  repeat split; try done.
  - apply Forall_cons in H as [Hk Hks]. destruct (I6 Hks) as [-> _]. by apply H6.
  - apply Forall_cons in H as [Hk Hks]. destruct (I6 Hks) as [_ ->].
    unfold url. by rewrite H2, (H6 Hk).
Qed.

Lemma configuration_is_fixed_witness :
  url (calls [CallConnect lossy_network; CallDisconnect;
              CallListenRouter lossy_network [ReadFail "closed"]] fresh_client).1
  = "ws://host/ws?token=t".
Proof.
  destruct (configuration_is_fixed
              [CallConnect lossy_network; CallDisconnect;
               CallListenRouter lossy_network [ReadFail "closed"]] fresh_client)
    as (_ & _ & _ & _ & _ & H).
  destruct H as [_ ->]; [|reflexivity].
  repeat constructor; discriminate.
Defined.

(** ** The aliasing, once more *)

Lemma transform_lookup (msgData : gmap string any) (k : string) :
  Router.transform msgData !! k =
    if decide (k = "senderId") then aliased msgData "source" "senderId"
    else if decide (k = "conversationId") then aliased msgData "conversationID" "conversationId"
    else if decide (k = "content") then aliased msgData "message" "content"
    else msgData !! k.
Proof.
  repeat case_decide; subst.
  - apply transform_senderId.
  - apply transform_conversationId.
  - apply transform_content.
  - by apply transform_other.
Qed.

(** X12: the aliasing never drops a key of the frame and adds at most the
    three keys [senderId], [conversationId] and [content], each only when the
    frame has the field it is copied from; and applying it to its own result
    changes nothing. *)
Theorem transform_keys (msgData : gmap string any) :
  (∀ k, is_Some (msgData !! k) → is_Some (Router.transform msgData !! k)) ∧
  (∀ k, is_Some (Router.transform msgData !! k) →
        is_Some (msgData !! k) ∨
        (k = "senderId" ∧ is_Some (msgData !! "source")) ∨
        (k = "conversationId" ∧ is_Some (msgData !! "conversationID")) ∨
        (k = "content" ∧ is_Some (msgData !! "message"))) ∧
  Router.transform (Router.transform msgData) = Router.transform msgData.
Proof.
  split; [|split].
  - intros k Hk. rewrite transform_lookup. unfold aliased.
    repeat case_decide; subst; try done.
    + by destruct (msgData !! "source").
    + by destruct (msgData !! "conversationID").
    + by destruct (msgData !! "message").
  - intros k. rewrite transform_lookup. unfold aliased.
    repeat case_decide; subst; auto.
    + destruct (msgData !! "source"); [right; left; eauto|auto].
    + destruct (msgData !! "conversationID"); [right; right; left; eauto|auto].
    + destruct (msgData !! "message"); [right; right; right; eauto|auto].
  - apply map_eq. intros k. rewrite (transform_lookup (Router.transform msgData)).
    unfold aliased.
    rewrite (transform_other msgData "source"),
            (transform_other msgData "conversationID"),
            (transform_other msgData "message") by discriminate.
    rewrite transform_senderId, transform_conversationId, transform_content.
    rewrite (transform_lookup msgData k). unfold aliased.
    repeat case_decide; subst; try done.
    + by destruct (msgData !! "source").
    + by destruct (msgData !! "conversationID").
    + by destruct (msgData !! "message").
Qed.

Lemma transform_keys_witness :
  Router.transform (Router.transform odd_chat_map) = Router.transform odd_chat_map ∧
  is_Some (Router.transform odd_chat_map !! "conversationID").
Proof.
  destruct (transform_keys odd_chat_map) as (Hkeep & _ & Hidem).
  split; [exact Hidem|]. apply Hkeep. eexists. reflexivity.
Defined.

(** ** The HTTP client *)

Lemma Request_unfold (web : Http.Web) (c : Http.ClientHttpClient) (method path : string)
    (body : any) (skipAuth : bool) :
  Http.Request web c method path body skipAuth =
    match marshalled web body with
    | inr cause => (c, inr (Http.ErrMarshal cause), [])
    | inl bodyReader =>
        match Http.NewRequest web method (Http.apiUrl c ++ path) with
        | Some cause => (c, inr (Http.ErrCreate cause), [])
        | None =>
            let req := first_request c method path bodyReader skipAuth in
            match Http.Do web 0 req with
            | inr cause => (c, inr (Http.ErrRequest cause), [req])
            | inl resp =>
                match Http.refreshTokenCallback c with
                | Some callback =>
                    if (Http.StatusCode resp =? 401)%Z && negb skipAuth then
                      let c' := Http.SetAccessToken (callback (Http.accessToken c)).1 c in
                      match (callback (Http.accessToken c)).2 with
                      | Some _ => (c', Http.conclude resp, [req])
                      | None =>
                          let retry := retry_request (callback (Http.accessToken c)).1 req in
                          match Http.Do web 1 retry with
                          | inr cause => (c', inr (Http.ErrRetry cause), [req; retry])
                          | inl resp' => (c', Http.conclude resp', [req; retry])
                          end
                      end
                    else (c, Http.conclude resp, [req])
                | None => (c, Http.conclude resp, [req])
                end
            end
        end
    end.
Proof.
  unfold Http.Request, marshalled, first_request, retry_request.
  destruct body;
    try (destruct (Http.Marshal web _) as [jb|cause]; [|reflexivity]);
    (destruct (Http.NewRequest web method _); [reflexivity|]);
    cbv zeta; (destruct (Http.Do web 0 _); [|reflexivity]);
    (destruct (Http.refreshTokenCallback c) as [cb|]; [|reflexivity]);
    (destruct (_ && _); [|reflexivity]);
    destruct (cb (Http.accessToken c)) as [tok [e|]]; reflexivity.
Qed.

Ltac Request_cases web c method path body skipAuth :=
  rewrite (Request_unfold web c method path body skipAuth);
  destruct (marshalled web body) as [bodyReader|?] eqn:Hmarshalled;
    [destruct (Http.NewRequest web method (Http.apiUrl c ++ path)) eqn:HNewRequest;
     [|cbv zeta;
       destruct (Http.Do web 0 (first_request c method path bodyReader skipAuth))
         as [resp0|?] eqn:HDo;
       [destruct (Http.refreshTokenCallback c) as [cb0|] eqn:Hcallback;
        [destruct ((Http.StatusCode resp0 =? 401)%Z && negb skipAuth) eqn:Hretry;
         [destruct (cb0 (Http.accessToken c)).2 eqn:Herr;
          [|destruct (Http.Do web 1
                       (retry_request (cb0 (Http.accessToken c)).1
                          (first_request c method path bodyReader skipAuth)))
              as [resp1|?] eqn:HDo1]|]|]|]]|].

Lemma marshalled_inv (web : Http.Web) (body : any) (bodyReader : option string) :
  marshalled web body = inl bodyReader →
  (body = ANil ∧ bodyReader = None) ∨
  (body ≠ ANil ∧ ∃ jsonBody, Http.Marshal web body = inl jsonBody ∧
                             bodyReader = Some jsonBody).
Proof.
  unfold marshalled. destruct body; try (intros [= <-]; by left);
    (destruct (Http.Marshal web _) as [jb|] eqn:HM; [|discriminate]);
    intros [= <-]; right; (split; [discriminate|]); by exists jb.
Qed.

(** X13: every request [Request] sends goes to the API URL followed by the
    path, with the given method, and carries the content type
    [application/json] and the API key; the first one carries an
    [Authorization] header, [Bearer] and the access token, exactly when
    authentication is not skipped and the token is not empty, and no other
    header; its body is the marshalled body, and no body at all for a nil
    one. *)
Theorem Request_first_request (web : Http.Web) (c : Http.ClientHttpClient)
    (method path : string) (body : any) (skipAuth : bool)
    (req : Http.HttpRequest) (rest : list Http.HttpRequest) :
  (Http.Request web c method path body skipAuth).2 = req :: rest →
  Http.Method req = method ∧
  Http.URL req = Http.apiUrl c ++ path ∧
  Http.Header req !! "Content-Type" = Some "application/json" ∧
  Http.Header req !! "x-api-key" = Some (Http.apiKey c) ∧
  Http.Header req !! "Authorization" =
    (if negb skipAuth && negb (String.eqb (Http.accessToken c) "")
     then Some ("Bearer " ++ Http.accessToken c) else None) ∧
  (∀ k, k ≠ "Content-Type" → k ≠ "x-api-key" → k ≠ "Authorization" →
        Http.Header req !! k = None) ∧
  (body = ANil → Http.Body req = None) ∧
  (body ≠ ANil → ∃ jsonBody, Http.Marshal web body = inl jsonBody ∧
                             Http.Body req = Some jsonBody) ∧
  Forall (λ r, Http.Method r = method ∧ Http.URL r = Http.apiUrl c ++ path ∧
               Http.Header r !! "Content-Type" = Some "application/json" ∧
               Http.Header r !! "x-api-key" = Some (Http.apiKey c)) rest.
Proof.
  assert (Hfirst : ∀ b,
    marshalled web body = inl b →
    let r := first_request c method path b skipAuth in
    Http.Method r = method ∧ Http.URL r = Http.apiUrl c ++ path ∧
    Http.Header r !! "Content-Type" = Some "application/json" ∧
    Http.Header r !! "x-api-key" = Some (Http.apiKey c) ∧
    Http.Header r !! "Authorization" =
      (if negb skipAuth && negb (String.eqb (Http.accessToken c) "")
       then Some ("Bearer " ++ Http.accessToken c) else None) ∧
    (∀ k, k ≠ "Content-Type" → k ≠ "x-api-key" → k ≠ "Authorization" →
          Http.Header r !! k = None) ∧
    (body = ANil → Http.Body r = None) ∧
    (body ≠ ANil → ∃ jsonBody, Http.Marshal web body = inl jsonBody ∧
                               Http.Body r = Some jsonBody)).
  { intros b Hb. simpl.
    split; [done|]. split; [done|].
    destruct (negb skipAuth && negb (String.eqb (Http.accessToken c) ""));
      (split; [by simplify_map_eq|]); (split; [by simplify_map_eq|]);
      (split; [by simplify_map_eq|]);
      (split; [intros k ? ? ?; by simplify_map_eq|]);
      destruct (marshalled_inv web body b Hb) as [[-> ->]|(Hne & jb & HM & ->)];
      split; try done; intros _; by exists jb. }
  assert (Hagain : ∀ b token,
    let r := retry_request token (first_request c method path b skipAuth) in
    Http.Method r = method ∧ Http.URL r = Http.apiUrl c ++ path ∧
    Http.Header r !! "Content-Type" = Some "application/json" ∧
    Http.Header r !! "x-api-key" = Some (Http.apiKey c)).
  { intros b token. simpl. split; [done|]. split; [done|].
    destruct (negb skipAuth && negb (String.eqb (Http.accessToken c) ""));
      split; by simplify_map_eq. }
  Request_cases web c method path body skipAuth; simpl; intros Hs; simplify_eq;
    destruct (Hfirst bodyReader eq_refl) as (?&?&?&?&?&?&?&?);
    repeat split; try done; repeat constructor; try apply Hagain.
Qed.

Lemma Request_first_request_witness :
  ∃ req rest,
    (Http.Request guarded_web stale_http_client "GET" "/api/v1/me" ANil false).2
      = req :: rest ∧
    Http.URL req = "http://api/api/v1/me" ∧
    Http.Header req !! "Authorization" = Some "Bearer stale" ∧
    Http.Body req = None.
Proof.
  eexists _, _. split; [reflexivity|].
  destruct (Request_first_request guarded_web stale_http_client "GET" "/api/v1/me"
              ANil false _ _ eq_refl) as (_ & Hu & _ & _ & Ha & _ & Hb & _).
  split; [exact Hu|]. split; [exact Ha|]. exact (Hb eq_refl).
Defined.

(** X14: [Request] hands at most two requests to the HTTP library.  When
    authentication is skipped or no callback is set it hands over at most
    one and leaves the client as it was.  It hands over none exactly when it
    returns the error of marshalling the body or of building the request.
    The API key, the API URL and the callback are never changed. *)
Theorem Request_sends_at_most_twice (web : Http.Web) (c : Http.ClientHttpClient)
    (method path : string) (body : any) (skipAuth : bool) :
  let c' := (Http.Request web c method path body skipAuth).1.1 in
  let answer := (Http.Request web c method path body skipAuth).1.2 in
  let sent := (Http.Request web c method path body skipAuth).2 in
  (List.length sent ≤ 2)%nat ∧
  (skipAuth = true ∨ Http.refreshTokenCallback c = None →
     (List.length sent ≤ 1)%nat ∧ c' = c) ∧
  (sent = [] ↔
     ∃ cause, answer = inr (Http.ErrMarshal cause) ∨ answer = inr (Http.ErrCreate cause)) ∧
  Http.apiKey c' = Http.apiKey c ∧
  Http.apiUrl c' = Http.apiUrl c ∧
  Http.refreshTokenCallback c' = Http.refreshTokenCallback c.
Proof.
  assert (Hconclude : ∀ resp cause,
            Http.conclude resp ≠ inr (Http.ErrMarshal cause) ∧
            Http.conclude resp ≠ inr (Http.ErrCreate cause)).
  { intros resp cause. unfold Http.conclude. by repeat case_match. }
  Request_cases web c method path body skipAuth; simpl;
    (split; [lia|]);
    (split; [intros [->|?]; simplify_eq; rewrite ?andb_false_r in *;
             simplify_eq; split; (lia || done)|]);
    (split; [split; [intros ?; simplify_eq; eauto
                    | intros [cause [?|?]]; simplify_eq;
                      try (by destruct (Hconclude resp0 cause));
                      try (by destruct (Hconclude resp1 cause))]|]);
    done.
Qed.

Lemma Request_sends_at_most_twice_witness :
  (Http.Request guarded_web stale_http_client "GET" "/api/v1/me" ANil true).1.1
    = stale_http_client ∧
  (List.length
     (Http.Request guarded_web stale_http_client "GET" "/api/v1/me" ANil true).2 ≤ 1)%nat.
Proof.
  destruct (Request_sends_at_most_twice guarded_web stale_http_client "GET"
              "/api/v1/me" ANil true) as (_ & Hone & _).
  destruct (Hone (or_introl eq_refl)) as [Hlen Hc]. by split.
Defined.

(** X15: the retry.  When the first answer has status 401, authentication
    is not skipped and a callback is set, the callback is called once and
    the token it leaves is stored.  If the callback returns an error nothing
    more is sent and the result is the API error of the 401 answer.  If it
    returns none, the same request is sent once more with [Authorization]
    set to [Bearer] and the stored token, also when that token is empty, and
    with the same body; whatever the second answer is, it is final: a second
    401 is returned as an API error without another call of the callback. *)
Theorem Request_retries_once (web : Http.Web) (c : Http.ClientHttpClient)
    (method path : string) (body : any)
    (callback : string → string * option string)
    (req : Http.HttpRequest) (rest : list Http.HttpRequest) (resp : Http.Response) :
  Http.refreshTokenCallback c = Some callback →
  (Http.Request web c method path body false).2 = req :: rest →
  Http.Do web 0 req = inl resp →
  Http.StatusCode resp = 401%Z →
  let retry :=
    Http.mkHttpRequest (Http.Method req) (Http.URL req)
      (<["Authorization" := "Bearer " ++ (callback (Http.accessToken c)).1]>
         (Http.Header req))
      (Http.Body req) in
  Http.accessToken (Http.Request web c method path body false).1.1
    = (callback (Http.accessToken c)).1 ∧
  (∀ err, (callback (Http.accessToken c)).2 = Some err →
     rest = [] ∧
     (Http.Request web c method path body false).1.2
       = inr (Http.ErrApi 401 (Http.Text resp))) ∧
  ((callback (Http.accessToken c)).2 = None →
     rest = [retry] ∧
     (Http.Request web c method path body false).1.2
       = match Http.Do web 1 retry with
         | inl resp' => Http.conclude resp'
         | inr cause => inr (Http.ErrRetry cause)
         end).
Proof.
  intros Hcb Hs Hdo H401 retry. subst retry.
  change (Http.mkHttpRequest (Http.Method req) (Http.URL req)
            (<["Authorization" := "Bearer " ++ (callback (Http.accessToken c)).1]>
               (Http.Header req)) (Http.Body req))
    with (retry_request (callback (Http.accessToken c)).1 req).
  assert (H401' : Http.conclude resp = inr (Http.ErrApi 401 (Http.Text resp))).
  { unfold Http.conclude. by rewrite H401. }
  revert Hs.
  Request_cases web c method path body false; simpl; intros Hs; simplify_eq;
    rewrite Hdo in HDo; simplify_eq;
    try (rewrite H401 in Hretry; discriminate Hretry);
    (split; [done|]); split.
  - intros err _. done.
  - intros Hnone. congruence.
  - intros err Hsome. congruence.
  - intros _. by rewrite HDo1.
  - intros err Hsome. congruence.
  - intros _. by rewrite HDo1.
Qed.

Lemma Request_retries_once_witness :
  Http.refreshTokenCallback stale_http_client = Some (λ _, ("fresh", None)) ∧
  Http.accessToken
    (Http.Request guarded_web stale_http_client "GET" "/api/v1/me" ANil false).1.1
    = "fresh" ∧
  List.length (Http.Request guarded_web stale_http_client "GET" "/api/v1/me" ANil false).2
    = 2%nat ∧
  (Http.Request guarded_web stale_http_client "GET" "/api/v1/me" ANil false).1.2
    = inl ∅.
Proof.
  split; [reflexivity|].
  destruct (Request_retries_once guarded_web stale_http_client "GET" "/api/v1/me" ANil
              (λ _, ("fresh", None)) _ _ (Http.mkResponse 401 "expired" NotJson)
              eq_refl eq_refl eq_refl eq_refl) as (Htoken & _ & Hretry).
  split; [exact Htoken|]. destruct (Hretry eq_refl) as [_ Hanswer].
  split; [reflexivity|]. rewrite Hanswer. reflexivity.
Defined.

(** X16: what [Request] returns reflects the answer to the last request it
    sent.  It returns a map exactly when that answer has a status below 400:
    the body decoded as a JSON object, and the nil map, not an error, when
    the body does not decode as one.  It returns an API error exactly when
    the status is 400 or more, with that status and the text of the body.
    The transport errors are those of the last [Do]. *)
Theorem Request_result (web : Http.Web) (c : Http.ClientHttpClient)
    (method path : string) (body : any) (skipAuth : bool) :
  let answer := (Http.Request web c method path body skipAuth).1.2 in
  let sent := (Http.Request web c method path body skipAuth).2 in
  (∀ result, answer = inl result →
     ∃ req resp,
       last sent = Some req ∧
       Http.Do web (List.length sent - 1) req = inl resp ∧
       (Http.StatusCode resp < 400)%Z ∧
       result = default ∅ (Unmarshal_map (Http.Value resp))) ∧
  (∀ status text, answer = inr (Http.ErrApi status text) →
     ∃ req resp,
       last sent = Some req ∧
       Http.Do web (List.length sent - 1) req = inl resp ∧
       Http.StatusCode resp = status ∧ Http.Text resp = text ∧ (400 ≤ status)%Z) ∧
  (∀ cause, answer = inr (Http.ErrRequest cause) ∨ answer = inr (Http.ErrRetry cause) →
     ∃ req, last sent = Some req ∧
            Http.Do web (List.length sent - 1) req = inr cause).
Proof.
  assert (Hok : ∀ resp result, Http.conclude resp = inl result →
            (Http.StatusCode resp < 400)%Z ∧
            result = default ∅ (Unmarshal_map (Http.Value resp))).
  { intros resp result. unfold Http.conclude.
    destruct (400 <=? Http.StatusCode resp)%Z eqn:Hs; [discriminate|].
    apply Z.leb_gt in Hs. destruct (Unmarshal_map _); intros [= <-]; by split. }
  assert (Hbad : ∀ resp status text, Http.conclude resp = inr (Http.ErrApi status text) →
            Http.StatusCode resp = status ∧ Http.Text resp = text ∧ (400 ≤ status)%Z).
  { intros resp status text. unfold Http.conclude.
    destruct (400 <=? Http.StatusCode resp)%Z eqn:Hs.
    - apply Z.leb_le in Hs. intros [= <- <-]. by repeat split.
    - by destruct (Unmarshal_map _). }
  assert (Hnot : ∀ resp cause, Http.conclude resp ≠ inr (Http.ErrRequest cause) ∧
                               Http.conclude resp ≠ inr (Http.ErrRetry cause)).
  { intros resp cause. unfold Http.conclude. by repeat case_match. }
  Request_cases web c method path body skipAuth; simpl;
    (split; [intros result Hr; simplify_eq;
             try (destruct (Hok _ _ Hr); eauto 10)|]);
    (split; [intros status text Hr; simplify_eq;
             try (destruct (Hbad _ _ _ Hr) as (?&?&?); eauto 10)|]);
    intros cause [Hr|Hr]; simplify_eq; eauto;
    try (by destruct (Hnot resp0 cause)); try (by destruct (Hnot resp1 cause)).
Qed.

Lemma Request_result_witness :
  ∃ req resp,
    last (Http.Request empty_web stale_http_client "GET" "/api/v1/me" ANil false).2
      = Some req ∧
    Http.Do empty_web 0 req = inl resp ∧
    (Http.StatusCode resp < 400)%Z ∧
    (∅ : gmap string any) = default ∅ (Unmarshal_map (Http.Value resp)).
Proof.
  destruct (Request_result empty_web stale_http_client "GET" "/api/v1/me" ANil false)
    as (Hok & _).
  destruct (Hok ∅ eq_refl) as (req & resp & H1 & H2 & H3 & H4).
  by exists req, resp.
Defined.

(** ** The façade *)

Lemma Request_skipAuth (web : Http.Web) (c : Http.ClientHttpClient)
    (method path : string) (body : any) :
  Http.Request web c method path body true =
    match marshalled web body with
    | inr cause => (c, inr (Http.ErrMarshal cause), [])
    | inl bodyReader =>
        match Http.NewRequest web method (Http.apiUrl c ++ path) with
        | Some cause => (c, inr (Http.ErrCreate cause), [])
        | None =>
            let req := first_request c method path bodyReader true in
            match Http.Do web 0 req with
            | inr cause => (c, inr (Http.ErrRequest cause), [req])
            | inl resp => (c, Http.conclude resp, [req])
            end
        end
    end.
Proof.
  Request_cases web c method path body true; try reflexivity;
    rewrite andb_false_r in Hretry; discriminate Hretry.
Qed.

Lemma Request_skipAuth_client (web : Http.Web) (c : Http.ClientHttpClient)
    (method path : string) (body : any) :
  (Http.Request web c method path body true).1.1 = c.
Proof. rewrite Request_skipAuth. cbv zeta. repeat case_match; reflexivity. Qed.

Lemma AuthenticateAnonymous_unfold (web : Http.Web) (fmt : Formats)
    (p : Facade.PaanjClient) (userData : gmap string any) (privateData : any) :
  Facade.AuthenticateAnonymous web fmt p userData privateData =
    let R := Http.Request web (Facade.httpClient p) "POST" "/api/v1/users/anonymous"
               (anonymous_body userData privateData) true in
    match R.1.2 with
    | inr err => (p, Returned (inr err), R.2, [])
    | inl resp =>
        match resp !! "accessToken", resp !! "refreshToken" with
        | Some (AStr access), Some (AStr refresh) =>
            let authResp := Facade.mkAuthResponse access refresh (userId_of fmt resp) 0 in
            (Facade.setSession authResp p, Returned (inl authResp), R.2,
             Emit "user.created"
               (Facade.session_event (userId_of fmt resp) access refresh)
               (Facade.wsClient p))
        | _, _ => (p, Panicked, R.2, [])
        end
    end.
Proof.
  unfold Facade.AuthenticateAnonymous, anonymous_body, userId_of. cbv zeta.
  pose proof (Request_skipAuth_client web (Facade.httpClient p) "POST"
                "/api/v1/users/anonymous"
                (AMap (<["user" := AMap userData]> (<["private" := privateData]> ∅))))
    as Hc.
  destruct (Http.Request web _ _ _ _ true) as [[c answer] sent]. simpl in Hc. subst c.
  destruct p. simpl. destruct answer as [resp|err]; [|reflexivity].
  repeat case_match; reflexivity.
Qed.

(** X17: [NewClient] panics on an empty API key and on nothing else.  The
    client it builds has the options as given, the API key in both
    clients, and never an empty WebSocket URL or API URL, a zero reconnect
    interval or a zero maximum: an empty URL and a zero are replaced by the
    defaults, any other value (a negative one included) is kept; the
    auto-reconnect flag is taken as given.  The client starts disconnected
    and unauthenticated, with no user id. *)
Theorem NewClient_defaults (options : ClientOptions) :
  (ApiKey options = "" → Facade.NewClient options = None) ∧
  (ApiKey options ≠ "" →
     ∃ p, Facade.NewClient options = Some p ∧
          NewClient options = Some (Facade.wsClient p) ∧
          Facade.options p = options ∧
          apiKey (Facade.wsClient p) = ApiKey options ∧
          Http.apiKey (Facade.httpClient p) = ApiKey options ∧
          wsUrl (Facade.wsClient p) ≠ "" ∧
          Http.apiUrl (Facade.httpClient p) ≠ "" ∧
          reconnectInterval (Facade.wsClient p) ≠ 0%Z ∧
          maxReconnectAttempts (Facade.wsClient p) ≠ 0%Z ∧
          (WsUrl options ≠ "" → wsUrl (Facade.wsClient p) = WsUrl options) ∧
          (ApiUrl options ≠ "" → Http.apiUrl (Facade.httpClient p) = ApiUrl options) ∧
          (ReconnectInterval options ≠ 0%Z →
             reconnectInterval (Facade.wsClient p) = ReconnectInterval options) ∧
          (MaxReconnectAttempts options ≠ 0%Z →
             maxReconnectAttempts (Facade.wsClient p) = MaxReconnectAttempts options) ∧
          autoReconnect (Facade.wsClient p) = AutoReconnect options ∧
          Facade.IsConnected p = false ∧
          Facade.IsAuthenticated p = false ∧
          Facade.GetUserId p = "" ∧
          tokens_agree p).
Proof.
  unfold Facade.NewClient, NewClient. split.
  - intros ->. reflexivity.
  - intros Hkey. apply String.eqb_neq in Hkey. rewrite Hkey.
    eexists. split; [reflexivity|]. simpl.
    split; [reflexivity|]. split; [reflexivity|]. split; [reflexivity|].
    split; [reflexivity|].
    split; [destruct (String.eqb (WsUrl options) "") eqn:E;
            [discriminate|by apply String.eqb_neq]|].
    split; [destruct (String.eqb (ApiUrl options) "") eqn:E;
            [discriminate|by apply String.eqb_neq]|].
    split; [destruct (ReconnectInterval options =? 0)%Z eqn:E; [lia|by apply Z.eqb_neq]|].
    split; [destruct (MaxReconnectAttempts options =? 0)%Z eqn:E; [lia|by apply Z.eqb_neq]|].
    split; [intros H; apply String.eqb_neq in H; by rewrite H|].
    split; [intros H; apply String.eqb_neq in H; by rewrite H|].
    split; [intros H; apply Z.eqb_neq in H; by rewrite H|].
    split; [intros H; apply Z.eqb_neq in H; by rewrite H|].
    repeat split; reflexivity.
Qed.

Lemma NewClient_defaults_witness :
  ApiKey example_options ≠ "" ∧
  Facade.NewClient example_options = Some example_client ∧
  wsUrl (Facade.wsClient example_client) = "ws://localhost:8090" ∧
  reconnectInterval (Facade.wsClient example_client) = 5000000000%Z.
Proof.
  assert (Hkey : ApiKey example_options ≠ "") by discriminate.
  split; [exact Hkey|].
  destruct (NewClient_defaults example_options) as [_ H].
  destruct (H Hkey) as (p & Hp & _). injection Hp as <-.
  repeat split; reflexivity.
Defined.

(** X18: the façade and its two clients hold the same access token: this
    is so after [AuthenticateWithToken] whatever came before, and it is kept
    by [AuthenticateAnonymous] (however it ends), [Connect], [Disconnect]
    and [On]. *)
Theorem tokens_stay_in_step (web : Http.Web) (fmt : Formats) (net : Network)
    (p : Facade.PaanjClient) (token userId refreshToken event : string)
    (callback : Handler) (userData : gmap string any) (privateData : any) :
  tokens_agree (Facade.AuthenticateWithToken token userId refreshToken p).1 ∧
  (tokens_agree p →
     tokens_agree (Facade.AuthenticateAnonymous web fmt p userData privateData).1.1.1 ∧
     tokens_agree (Facade.Connect net p).1.1 ∧
     tokens_agree (Facade.Disconnect p).1 ∧
     tokens_agree (Facade.On event callback p)).
Proof.
  split; [by split|]. intros [Hws Hhttp].
  split; [|split; [|split]].
  - rewrite AuthenticateAnonymous_unfold. cbv zeta.
    repeat case_match; by split.
  - unfold Facade.Connect.
    pose proof (Connect_fields net (Facade.wsClient p)) as (_ & Ht & _).
    destruct (Connect net (Facade.wsClient p)) as [[ws err] t]. simpl in *.
    split; simpl; congruence.
  - unfold Facade.Disconnect, Disconnect.
    destruct (conn (Facade.wsClient p)); by split.
  - by split.
Qed.

Lemma tokens_stay_in_step_witness :
  tokens_agree example_client ∧
  tokens_agree
    (Facade.AuthenticateAnonymous signup_web plain_formats example_client ∅ ANil).1.1.1.
Proof.
  assert (H0 : tokens_agree example_client) by (by split).
  split; [exact H0|].
  exact (proj1 (proj2 (tokens_stay_in_step signup_web plain_formats lossy_network
                         example_client "" "" "" "" quiet ∅ ANil) H0)).
Defined.

(** X19: [AuthenticateWithToken] stores the token, the refresh token and
    the user id, gives the token to both clients, and starts the handlers of
    ["token.updated"], in order, with a map of the three values.  The client
    counts as authenticated exactly when the token is not empty.  The
    connection is left as it is: nothing is dialed, and [Connect] on a
    connected client still does nothing, so an open connection keeps the
    token it was dialed with. *)
Theorem AuthenticateWithToken_sets_the_session (token userId refreshToken : string)
    (p : Facade.PaanjClient) :
  let p' := (Facade.AuthenticateWithToken token userId refreshToken p).1 in
  Facade.accessToken p' = token ∧
  Facade.refreshToken p' = refreshToken ∧
  Facade.GetUserId p' = userId ∧
  accessToken (Facade.wsClient p') = token ∧
  Http.accessToken (Facade.httpClient p') = token ∧
  Facade.IsAuthenticated p' = negb (String.eqb token "") ∧
  Facade.IsConnected p' = Facade.IsConnected p ∧
  conn (Facade.wsClient p') = conn (Facade.wsClient p) ∧
  eventHandlers (Facade.wsClient p') = eventHandlers (Facade.wsClient p) ∧
  (Facade.AuthenticateWithToken token userId refreshToken p).2
    = map (λ h, Go h (Facade.session_event userId token refreshToken))
          (handlers_of (eventHandlers (Facade.wsClient p)) "token.updated") ∧
  (∀ net, Facade.IsConnected p = true →
          (Facade.Connect net p').2 = [] ∧ (Facade.Connect net p').1.1 = p').
Proof.
  repeat split; try reflexivity.
  - unfold Facade.Connect. rewrite Connect_connected; [done|exact H].
  - unfold Facade.Connect. rewrite Connect_connected; [|exact H].
    simpl. reflexivity.
Qed.

Lemma AuthenticateWithToken_sets_the_session_witness :
  Facade.IsAuthenticated (Facade.AuthenticateWithToken "" "u" "r" listening_client).1
    = false ∧
  (Facade.AuthenticateWithToken "" "u" "r" listening_client).2
    = [Go stuck (Facade.session_event "u" "" "r")].
Proof.
  destruct (AuthenticateWithToken_sets_the_session "" "u" "r" listening_client)
    as (_ & _ & _ & _ & _ & Hauth & _ & _ & _ & Hemit & _).
  split; [exact Hauth|]. rewrite Hemit. reflexivity.
Defined.

(** X20: [AuthenticateAnonymous] sends at most one request: a POST to the
    API URL followed by [/api/v1/users/anonymous], with the API key and the
    content type, never with an [Authorization] header, also when the client
    holds a token; its body is the marshalled map of [user] and
    [private]. *)
Theorem AuthenticateAnonymous_request (web : Http.Web) (fmt : Formats)
    (p : Facade.PaanjClient) (userData : gmap string any) (privateData : any) :
  let sent := (Facade.AuthenticateAnonymous web fmt p userData privateData).1.2 in
  (List.length sent ≤ 1)%nat ∧
  (∀ req, req ∈ sent →
     Http.Method req = "POST" ∧
     Http.URL req = Http.apiUrl (Facade.httpClient p) ++ "/api/v1/users/anonymous" ∧
     Http.Header req !! "x-api-key" = Some (Http.apiKey (Facade.httpClient p)) ∧
     Http.Header req !! "Content-Type" = Some "application/json" ∧
     Http.Header req !! "Authorization" = None ∧
     ∃ jsonBody,
       Http.Marshal web
         (AMap (<["user" := AMap userData]> (<["private" := privateData]> ∅)))
         = inl jsonBody ∧
       Http.Body req = Some jsonBody).
Proof.
  rewrite AuthenticateAnonymous_unfold. cbv zeta.
  rewrite Request_skipAuth. unfold anonymous_body, marshalled. cbv zeta.
  destruct (Http.Marshal web _) as [jb|] eqn:HM; simpl.
  2:{ split; [lia|]. intros req Hin. by apply elem_of_nil in Hin. }
  destruct (Http.NewRequest web _ _); simpl.
  { split; [lia|]. intros req Hin. by apply elem_of_nil in Hin. }
  assert (Hreq : ∀ req,
    req ∈ [first_request (Facade.httpClient p) "POST" "/api/v1/users/anonymous"
             (Some jb) true] →
    Http.Method req = "POST" ∧
    Http.URL req = Http.apiUrl (Facade.httpClient p) ++ "/api/v1/users/anonymous" ∧
    Http.Header req !! "x-api-key" = Some (Http.apiKey (Facade.httpClient p)) ∧
    Http.Header req !! "Content-Type" = Some "application/json" ∧
    Http.Header req !! "Authorization" = None ∧
    ∃ jsonBody, @inl string string jb = inl jsonBody ∧ Http.Body req = Some jsonBody).
  { intros req Hin. apply list_elem_of_singleton in Hin. subst req. simpl.
    repeat split; try by simplify_map_eq. by exists jb. }
  destruct (Http.Do web 0 _) as [resp|cause]; simpl.
  - destruct (Http.conclude resp) as [m|err]; simpl.
    + repeat case_match; simpl; (split; [lia|]); exact Hreq.
    + split; [lia|]. exact Hreq.
  - split; [lia|]. exact Hreq.
Qed.

Lemma AuthenticateAnonymous_request_witness :
  ∃ req,
    (Facade.AuthenticateAnonymous signup_web plain_formats
       (Facade.AuthenticateWithToken "old" "u" "r" example_client).1 ∅ ANil).1.2
      = [req] ∧
    Http.URL req = "http://localhost:3000/api/v1/users/anonymous" ∧
    Http.Header req !! "Authorization" = None.
Proof.
  eexists. split; [reflexivity|].
  destruct (AuthenticateAnonymous_request signup_web plain_formats
              (Facade.AuthenticateWithToken "old" "u" "r" example_client).1 ∅ ANil)
    as [_ H].
  destruct (H _ (list_elem_of_here _ _)) as (_ & Hu & _ & _ & Ha & _).
  split; [exact Hu|exact Ha].
Defined.

(** X21: how [AuthenticateAnonymous] ends.  If [Request] returns an error,
    that error is returned, the client is unchanged and nothing is emitted.
    If [Request] returns a map in which [accessToken] and [refreshToken] are
    both strings, the session is returned and stored: the user id is the
    [userId] of the map when that is a string, and its formatted value
    otherwise, [ExpiresIn] is left zero, the client counts as authenticated
    exactly when the access token is not empty, and the handlers of
    ["user.created"] are started, in order, with the session.  In every
    other case (one of the two is missing or not a string) the call panics,
    with the client unchanged and nothing emitted. *)
Theorem AuthenticateAnonymous_outcomes (web : Http.Web) (fmt : Formats)
    (p : Facade.PaanjClient) (userData : gmap string any) (privateData : any) :
  let answer :=
    (Http.Request web (Facade.httpClient p) "POST" "/api/v1/users/anonymous"
       (AMap (<["user" := AMap userData]> (<["private" := privateData]> ∅))) true).1.2 in
  let p' := (Facade.AuthenticateAnonymous web fmt p userData privateData).1.1.1 in
  let effects := (Facade.AuthenticateAnonymous web fmt p userData privateData).2 in
  match (Facade.AuthenticateAnonymous web fmt p userData privateData).1.1.2 with
  | Returned (inr err) => answer = inr err ∧ p' = p ∧ effects = []
  | Panicked =>
      p' = p ∧ effects = [] ∧
      ∃ resp, answer = inl resp ∧
              ¬ (∃ access refresh, resp !! "accessToken" = Some (AStr access) ∧
                                   resp !! "refreshToken" = Some (AStr refresh))
  | Returned (inl authResp) =>
      ∃ resp,
        answer = inl resp ∧
        resp !! "accessToken" = Some (AStr (Facade.AccessToken authResp)) ∧
        resp !! "refreshToken" = Some (AStr (Facade.RefreshToken authResp)) ∧
        Facade.UserId authResp = userId_of fmt resp ∧
        Facade.ExpiresIn authResp = 0%Z ∧
        p' = Facade.setSession authResp p ∧
        Facade.IsAuthenticated p' = negb (String.eqb (Facade.AccessToken authResp) "") ∧
        Facade.GetUserId p' = Facade.UserId authResp ∧
        effects =
          map (λ h, Go h (Facade.session_event (Facade.UserId authResp)
                            (Facade.AccessToken authResp)
                            (Facade.RefreshToken authResp)))
              (handlers_of (eventHandlers (Facade.wsClient p)) "user.created")
  end.
Proof.
  rewrite AuthenticateAnonymous_unfold. unfold anonymous_body. cbv zeta.
  destruct (Http.Request web _ _ _ _ true).1.2 as [resp|err]; simpl; [|done].
  destruct (resp !! "accessToken") as [[]|] eqn:Ha;
    try (split; [done|]; split; [done|]; exists resp; split; [done|];
         intros (a & r & ? & ?); congruence).
  destruct (resp !! "refreshToken") as [[]|] eqn:Hr;
    try (split; [done|]; split; [done|]; exists resp; split; [done|];
         intros (a & r & ? & ?); congruence).
  simpl. exists resp. repeat split; done.
Qed.

Lemma AuthenticateAnonymous_outcomes_witness :
  (Facade.AuthenticateAnonymous signup_web plain_formats listening_client ∅ ANil).1.1.2
    = Returned (inl (Facade.mkAuthResponse "at" "rt" "42" 0)) ∧
  (Facade.AuthenticateAnonymous signup_web plain_formats listening_client ∅ ANil).2
    = [Go quiet (Facade.session_event "42" "at" "rt")].
Proof.
  pose proof (AuthenticateAnonymous_outcomes signup_web plain_formats listening_client
                ∅ ANil) as H.
  change (Facade.AuthenticateAnonymous signup_web plain_formats listening_client
            ∅ ANil).1.1.2
    with (Returned (A := Facade.AuthResponse + Http.Error)
            (inl (Facade.mkAuthResponse "at" "rt" "42" 0))) in H.
  cbv zeta in H. destruct H as (resp & _ & _ & _ & _ & _ & _ & _ & _ & Hemit).
  split; [reflexivity|]. rewrite Hemit. reflexivity.
Defined.

(** X22: an answer that is a success by its status but carries no session
    makes [AuthenticateAnonymous] panic: when the request is sent and
    answered with a status below 400, and the body is not a JSON object, or
    is one in which [accessToken] or [refreshToken] is not a string, the call
    panics after that one request; the client is unchanged and nothing is
    emitted. *)
Theorem AuthenticateAnonymous_panics_without_session (web : Http.Web) (fmt : Formats)
    (p : Facade.PaanjClient) (userData : gmap string any) (privateData : any)
    (jsonBody : string) (resp : Http.Response) :
  let req :=
    first_request (Facade.httpClient p) "POST" "/api/v1/users/anonymous"
      (Some jsonBody) true in
  let result := default ∅ (Unmarshal_map (Http.Value resp)) in
  Http.Marshal web (AMap (<["user" := AMap userData]> (<["private" := privateData]> ∅)))
    = inl jsonBody →
  Http.NewRequest web "POST"
    (Http.apiUrl (Facade.httpClient p) ++ "/api/v1/users/anonymous") = None →
  Http.Do web 0 req = inl resp →
  (Http.StatusCode resp < 400)%Z →
  ¬ (∃ access refresh, result !! "accessToken" = Some (AStr access) ∧
                       result !! "refreshToken" = Some (AStr refresh)) →
  Facade.AuthenticateAnonymous web fmt p userData privateData = (p, Panicked, [req], []).
Proof.
  intros req result HM HN HD Hs Hno.
  rewrite AuthenticateAnonymous_unfold, Request_skipAuth.
  unfold anonymous_body, marshalled. rewrite HM, HN. cbv zeta. fold req. rewrite HD.
  unfold Http.conclude. apply Z.leb_gt in Hs. rewrite Hs. simpl.
  assert (Hresult : match Unmarshal_map (Http.Value resp) with
                    | Some r => @inl (gmap string any) Http.Error r
                    | None => inl ∅
                    end = inl result).
  { subst result. by destruct (Unmarshal_map _). }
  rewrite Hresult.
  destruct (result !! "accessToken") as [[]|] eqn:Ha; try reflexivity.
  destruct (result !! "refreshToken") as [[]|] eqn:Hr; try reflexivity.
  exfalso. apply Hno. eauto.
Qed.

Lemma AuthenticateAnonymous_panics_without_session_witness :
  Facade.AuthenticateAnonymous empty_web plain_formats example_client ∅ ANil
  = (example_client, Panicked,
     [first_request (Facade.httpClient example_client) "POST"
        "/api/v1/users/anonymous" (Some "{}") true], []).
Proof.
  refine (AuthenticateAnonymous_panics_without_session empty_web plain_formats
            example_client ∅ ANil "{}" (Http.mkResponse 200 "" NotJson)
            eq_refl eq_refl eq_refl _ _).
  - reflexivity.
  - intros (a & r & Ha & _). discriminate Ha.
Defined.

(** X23: the callback [NewClient] installs refreshes nothing and reports
    no error, so for a client that holds a token a 401 is answered by
    sending the very same request a second time, and the second answer is
    final. *)
Theorem installed_callback_repeats_the_request (web : Http.Web)
    (c : Http.ClientHttpClient) (method path : string) (body : any)
    (req : Http.HttpRequest) (rest : list Http.HttpRequest) (resp : Http.Response) :
  Http.refreshTokenCallback c = Some (λ token, (token, None)) →
  Http.accessToken c ≠ "" →
  (Http.Request web c method path body false).2 = req :: rest →
  Http.Do web 0 req = inl resp →
  Http.StatusCode resp = 401%Z →
  (Http.Request web c method path body false).2 = [req; req] ∧
  (Http.Request web c method path body false).1.1 = c ∧
  (Http.Request web c method path body false).1.2
    = match Http.Do web 1 req with
      | inl resp' => Http.conclude resp'
      | inr cause => inr (Http.ErrRetry cause)
      end.
Proof.
  intros Hcb Htoken Hs Hdo H401. revert Hs.
  assert (Hsame : ∀ b, retry_request (Http.accessToken c)
                         (first_request c method path b false)
                       = first_request c method path b false).
  { intros b. unfold retry_request, first_request. simpl.
    apply String.eqb_neq in Htoken. rewrite Htoken. simpl.
    by rewrite insert_insert_eq. }
  assert (Hc : Http.SetAccessToken (Http.accessToken c) c = c) by (by destruct c).
  Request_cases web c method path body false; simpl; intros Hs; simplify_eq;
    rewrite Hdo in HDo; simplify_eq;
    try (rewrite H401 in Hretry; discriminate Hretry);
    simpl in *; try discriminate;
    rewrite Hsame in HDo1; rewrite Hsame, Hc, HDo1; done.
Qed.

Lemma installed_callback_repeats_the_request_witness :
  List.length
    (Http.Request guarded_web
       (Http.SetAccessToken "stale" (Facade.httpClient example_client))
       "GET" "/api/v1/me" ANil false).2 = 2%nat ∧
  (Http.Request guarded_web
     (Http.SetAccessToken "stale" (Facade.httpClient example_client))
     "GET" "/api/v1/me" ANil false).1.2 = inr (Http.ErrApi 401 "expired").
Proof.
  destruct (installed_callback_repeats_the_request guarded_web
              (Http.SetAccessToken "stale" (Facade.httpClient example_client))
              "GET" "/api/v1/me" ANil _ _ (Http.mkResponse 401 "expired" NotJson)
              eq_refl ltac:(discriminate) eq_refl eq_refl eq_refl) as (Hs & _ & Ha).
  split; [by rewrite Hs|]. rewrite Ha. reflexivity.
Defined.
